(** * Whiteboard server: the room registry and the turn-gated event router

    A shallow embedding of [src/index.js] (the second copy of the file under
    [src/unnamed] has the same handlers).

    Modelling choices, read off the source:
    - [rooms] is the JS object used as a dictionary from room names to room
      records: its own properties are a [gmap string Room]. Being a plain
      [{}] it also answers to the names [Object.prototype] defines
      ([inherited]): under those [rooms[name]] is truthy and has no
      [users], so the code that reads [.users] of it throws a TypeError.
    - a handler returns the state it leaves and the list of [emit] calls it
      made, in order, and a second function ([..._throws]) tells whether it
      ended by throwing; what it did before the throw is in the first. An
      uncaught exception ends the process: [run] stops there.
    - events have the shape of the wire contract: a room name is a string
      and a payload an object with a string [room].
    - a socket id and a room name are strings; [===] on them is string
      equality.
    - [currentTurnIndex] is a JS number that only ever holds small integers
      ([0], [indexOf]'s result, [(i + 1) % length]); it is a [Z], and [%] is
      [Z.rem] (the sign follows the dividend, as in JS).
    - [null] and [undefined] are both [None]: the code only compares them
      with a socket id, hands them to [indexOf], or sends them as the
      payload of [turn-update].
    - socket.io itself is not part of the repository. Of it the model keeps
      what the handlers rely on: the groups a socket was subscribed to by
      [socket.join], which the socket has left when its [disconnect] handler
      runs, and who an emit to [io.in(room)] or [socket.to(room)] reaches. *)

From stdpp Require Import base gmap sets list strings.
From Stdlib Require Import ZArith Lia.

#[local] Set Warnings "-clear-no-such-hyp".

Local Open Scope string_scope.
Local Open Scope Z_scope.

(** ** Data *)

(** [rooms[roomName] = { users: [...], currentTurnIndex: 0 }] *)
Record Room := mkRoom {
  users : list string;
  currentTurnIndex : Z
}.

(** What the code reads and writes of a socket object: the [roomName]
    property the join handler stores on it, and the broadcast groups it was
    subscribed to by [socket.join]. *)
Record Socket := mkSocket {
  roomName : option string;
  joined : gset string
}.

(** A socket on which no handler has run yet. An id that [sockets] has no
    entry for stands for such a socket. *)
Definition freshSocket : Socket := mkSocket None ∅.

Record Server := mkServer {
  rooms : gmap string Room;
  sockets : gmap string Socket
}.

Definition initial : Server := mkServer ∅ ∅.

(** The payload of every event but [join-room]: an object with a [room] key
    and, for the drawing events, the stroke's fields. *)
Record Payload := mkPayload {
  room : string;
  fields : list (string * Z)
}.

(** Outbound events. The names differ from the inbound ones. *)
Inductive Message :=
  | turn_update (activeSocketId : option string)
  | server_start_drawing (data : Payload)
  | server_drawing (data : Payload)
  | server_finish_drawing
  | server_clear_canvas.

(** [io.in(room).emit(...)] and [socket.to(room).emit(...)]. *)
Inductive Target :=
  | io_in (r : string)
  | socket_to (sender r : string).

Record Emit := mkEmit {
  target : Target;
  message : Message
}.

#[global] Instance Room_eq_dec : EqDecision Room.
Proof. solve_decision. Defined.
#[global] Instance Payload_eq_dec : EqDecision Payload.
Proof. solve_decision. Defined.
#[global] Instance Message_eq_dec : EqDecision Message.
Proof. solve_decision. Defined.
#[global] Instance Target_eq_dec : EqDecision Target.
Proof. solve_decision. Defined.
#[global] Instance Emit_eq_dec : EqDecision Emit.
Proof. solve_decision. Defined.

(** ** JS primitives the handlers use *)

(** [arr[i]]: [undefined] outside the array. *)
Definition js_index (arr : list string) (i : Z) : option string :=
  if decide (0 ≤ i) then arr !! Z.to_nat i else None.

(** [arr.indexOf(x)], scanning from position [i]: the first position holding
    [x], or [-1]. *)
Fixpoint indexOf_from (i : Z) (arr : list string) (x : string) : Z :=
  match arr with
  | [] => -1
  | y :: arr' => if decide (y = x) then i else indexOf_from (i + 1) arr' x
  end.

(** [undefined] is no element of an array of strings. *)
Definition indexOf (arr : list string) (x : option string) : Z :=
  match x with
  | None => -1
  | Some x => indexOf_from 0 arr x
  end.

(** A property key is a string: [rooms[undefined]] reads the key
    ["undefined"]. *)
Definition property_key (k : option string) : string :=
  match k with
  | Some k => k
  | None => "undefined"
  end.

(** ** The transport's side of a socket *)

Definition socket_of (st : Server) (id : string) : Socket :=
  default freshSocket (sockets st !! id).

(** Modelled from the spec: the transport layer's broadcast groups (section
    6, "a join primitive that subscribes the connection to a broadcast
    group"). The sockets subscribed to group [r]. *)
Definition subscribers (st : Server) (r : string) : gset string :=
  dom (filter (λ kv, r ∈ joined kv.2) (sockets st)).

(** Modelled from the spec: the transport layer's emit primitives (section
    6, sendToRoom and sendToRoomExcept). Who receives an emitted event. *)
Definition recipients (st : Server) (e : Emit) : gset string :=
  match target e with
  | io_in r => subscribers st r
  | socket_to sender r => subscribers st r ∖ {[sender]}
  end.

(** ** The registry as a JS object *)

(** The property names of [Object.prototype] (Node): every plain object
    answers to them, with a function or, for [__proto__], the prototype
    itself. *)
Definition Object_prototype_keys : list string :=
  ["constructor"; "__defineGetter__"; "__defineSetter__"; "hasOwnProperty";
   "__lookupGetter__"; "__lookupSetter__"; "isPrototypeOf"; "propertyIsEnumerable";
   "toString"; "valueOf"; "__proto__"; "toLocaleString"].

Definition inherited (name : string) : bool :=
  bool_decide (name ∈ Object_prototype_keys).

(** [rooms[name]] is no room record of the registry but a value found on
    the prototype: it is truthy, [.users] of it is [undefined], and
    [.users.length] and [.users.push] throw. An own property comes first. *)
Definition reads_prototype (st : Server) (name : string) : bool :=
  match rooms st !! name with
  | Some _ => false
  | None => inherited name
  end.

(** ** The helpers of [index.js] *)

(** What [getActiveUser] returns when it returns. It does not return under a
    name that reads the prototype: see [getActiveUser_throws]. *)
Definition getActiveUser (st : Server) (roomName : string) : option string :=
  match rooms st !! roomName with
  | None => None
  | Some room =>
      if decide (length (users room) = 0%nat) then None
      else js_index (users room) (currentTurnIndex room)
  end.

(** [!room] is false for a value found on the prototype, and
    [room.users.length] throws; there is no value returned then. *)
Definition getActiveUser_throws (st : Server) (roomName : string) : bool :=
  reads_prototype st roomName.

(** The emit is not reached when [getActiveUser] throws. *)
Definition broadcastTurnUpdate (st : Server) (roomName : string) : list Emit :=
  if getActiveUser_throws st roomName then []
  else
    let activeSocketId := getActiveUser st roomName in
    [mkEmit (io_in roomName) (turn_update activeSocketId)].

Definition broadcastTurnUpdate_throws (st : Server) (roomName : string) : bool :=
  getActiveUser_throws st roomName.

Definition set_rooms (f : gmap string Room → gmap string Room) (st : Server) : Server :=
  mkServer (f (rooms st)) (sockets st).

Definition set_sockets (f : gmap string Socket → gmap string Socket) (st : Server) : Server :=
  mkServer (rooms st) (f (sockets st)).

(** [room.currentTurnIndex = i] on the record stored under [roomName]. *)
Definition set_index (roomName : string) (i : Z) (st : Server) : Server :=
  set_rooms (alter (λ room, mkRoom (users room) i) roomName) st.

(** [room.users = us] on the record stored under [roomName]. *)
Definition set_users (roomName : string) (us : list string) (st : Server) : Server :=
  set_rooms (alter (λ room, mkRoom us (currentTurnIndex room)) roomName) st.

Definition passTurn (st : Server) (roomName : string) : Server * list Emit :=
  match rooms st !! roomName with
  | None => (st, [])
  | Some room =>
      if decide (length (users room) = 0%nat) then (st, [])
      else
        let st' :=
          set_index roomName
            (Z.rem (currentTurnIndex room + 1) (Z.of_nat (length (users room)))) st in
        (st', broadcastTurnUpdate st' roomName)
  end.

(** [!room] is false for a value found on the prototype, and
    [room.users.length] throws before anything is written. On a room of the
    registry nothing throws: the broadcast finds the room it was called
    for. *)
Definition passTurn_throws (st : Server) (roomName : string) : bool :=
  reads_prototype st roomName.

(** ** The handlers registered on a socket *)

Section handlers.
(** [socket.id] of the socket the handlers are registered on. *)
Variable id : string.

Definition join_room (st : Server) (roomName : string) : Server * list Emit :=
  (* socket.join(roomName); socket.roomName = roomName *)
  let sock := socket_of st id in
  let st1 :=
    set_sockets (<[id := mkSocket (Some roomName) ({[roomName]} ∪ joined sock)]>) st in
  if reads_prototype st1 roomName then
    (* rooms[roomName] is truthy: no room is created, and .users.push throws *)
    (st1, [])
  else
    let st2 :=
      match rooms st1 !! roomName with
      | None => set_rooms (<[roomName := mkRoom [] 0]>) st1
      | Some _ => st1
      end in
    let st3 :=
      set_rooms (alter (λ room, mkRoom (users room ++ [id]) (currentTurnIndex room)) roomName)
        st2 in
    (st3, broadcastTurnUpdate st3 roomName).

(** The throw comes after [socket.join] and the write of [socket.roomName]. *)
Definition join_room_throws (st : Server) (roomName : string) : bool :=
  reads_prototype st roomName.

Definition pass_turn (st : Server) (data : Payload) : Server * list Emit :=
  let roomName := room data in
  passTurn st roomName.

Definition pass_turn_throws (st : Server) (data : Payload) : bool :=
  passTurn_throws st (room data).

(** The turn check wrapped around every drawing handler. *)
Definition handleDrawEvent (handler : Server → Payload → Server * list Emit)
    (st : Server) (data : Payload) : Server * list Emit :=
  let roomName := room data in
  let activeSocketId := getActiveUser st roomName in
  if decide (Some id = activeSocketId) then handler st data
  else (st, []).

(** The wrapper throws where [getActiveUser] does; the wrapped emits do
    not throw. *)
Definition handleDrawEvent_throws (st : Server) (data : Payload) : bool :=
  getActiveUser_throws st (room data).

Definition start_drawing : Server → Payload → Server * list Emit :=
  handleDrawEvent (λ st data,
    (st, [mkEmit (socket_to id (room data)) (server_start_drawing data)])).

Definition drawing : Server → Payload → Server * list Emit :=
  handleDrawEvent (λ st data,
    (st, [mkEmit (socket_to id (room data)) (server_drawing data)])).

Definition finish_drawing : Server → Payload → Server * list Emit :=
  handleDrawEvent (λ st data,
    (st, [mkEmit (socket_to id (room data)) server_finish_drawing])).

Definition clear_canvas : Server → Payload → Server * list Emit :=
  handleDrawEvent (λ st data,
    (st, [mkEmit (io_in (room data)) server_clear_canvas])).

(** By the time the handler runs the transport has taken the socket out
    of every group; the socket object, with its [roomName], is still in
    the handler's hands. A socket with no stored room makes the handler
    work under the key ["undefined"]; the emit it makes if the registry has
    a room of that name is written [io_in "undefined"] here, where the code
    hands the value [undefined] itself to [io.in]. *)
Definition disconnect (st : Server) : Server * list Emit :=
  let roomName := property_key (roomName (socket_of st id)) in
  let st := set_sockets (delete id) st in
  match rooms st !! roomName with
  | None => (st, [])
  | Some room =>
      let wasTheirTurn := bool_decide (getActiveUser st roomName = Some id) in
      let st := set_users roomName (filter (λ u, u ≠ id) (users room)) st in
      if decide (length (filter (λ u, u ≠ id) (users room)) = 0%nat) then
        (set_rooms (delete roomName) st, [])
      else if wasTheirTurn then
        let st := set_index roomName 0 st in
        (st, broadcastTurnUpdate st roomName)
      else
        let activeUser := getActiveUser st roomName in
        let newIndex := indexOf (filter (λ u, u ≠ id) (users room)) activeUser in
        let st :=
          if decide (newIndex ≠ -1) then set_index roomName newIndex st
          else set_index roomName 0 st in
        (st, broadcastTurnUpdate st roomName)
  end.

(** [if (rooms[roomName])] lets a value found on the prototype through, and
    the first [getActiveUser] throws: nothing is written or emitted. *)
Definition disconnect_throws (st : Server) : bool :=
  getActiveUser_throws st (property_key (roomName (socket_of st id))).
End handlers.

(** ** The event loop: one inbound event at a time *)

Inductive Event :=
  | JoinRoom (roomName : string)
  | PassTurn (data : Payload)
  | StartDrawing (data : Payload)
  | Drawing (data : Payload)
  | FinishDrawing (data : Payload)
  | ClearCanvas (data : Payload)
  | Disconnect.

(** Dispatch of an event received on the socket [id]. Nothing is assumed of
    the order in which a socket sends its events. *)
Definition handle (st : Server) (id : string) (ev : Event) : Server * list Emit :=
  match ev with
  | JoinRoom roomName => join_room id st roomName
  | PassTurn data => pass_turn st data
  | StartDrawing data => start_drawing id st data
  | Drawing data => drawing id st data
  | FinishDrawing data => finish_drawing id st data
  | ClearCanvas data => clear_canvas id st data
  | Disconnect => disconnect id st
  end.

(** Whether the handler of the event ends by throwing. *)
Definition handle_throws (st : Server) (id : string) (ev : Event) : bool :=
  match ev with
  | JoinRoom roomName => join_room_throws st roomName
  | PassTurn data => pass_turn_throws st data
  | StartDrawing data | Drawing data | FinishDrawing data | ClearCanvas data =>
      handleDrawEvent_throws st data
  | Disconnect => disconnect_throws id st
  end.

(** The state after a sequence of inbound events. No handler catches, so
    the first throw ends the process and the events behind it are not
    handled. *)
Fixpoint run (st : Server) (evs : list (string * Event)) : Server :=
  match evs with
  | [] => st
  | e :: evs' =>
      if handle_throws st e.1 e.2 then (handle st e.1 e.2).1
      else run (handle st e.1 e.2).1 evs'
  end.

(** ** Properties of rooms and of server states *)

(** The turn pointer points into the member list. *)
Definition in_bounds (room : Room) : Prop :=
  0 ≤ currentTurnIndex room < Z.of_nat (length (users room)).

(** Every room of the registry has a valid turn pointer. *)
Definition Bounds (st : Server) : Prop :=
  map_Forall (λ _ room, in_bounds room) (rooms st).

(** No room of the registry has an empty member list. *)
Definition NonEmpty (st : Server) : Prop :=
  map_Forall (λ _ room, users room ≠ []) (rooms st).

#[global] Instance in_bounds_dec room : Decision (in_bounds room).
Proof. unfold in_bounds. apply _. Defined.
#[global] Instance Bounds_dec st : Decision (Bounds st).
Proof. unfold Bounds. apply _. Defined.
#[global] Instance NonEmpty_dec st : Decision (NonEmpty st).
Proof. unfold NonEmpty. apply _. Defined.

(** The payload of a drawing-class event. *)
Definition draw_payload (ev : Event) : option Payload :=
  match ev with
  | StartDrawing data | Drawing data | FinishDrawing data | ClearCanvas data => Some data
  | JoinRoom _ | PassTurn _ | Disconnect => None
  end.

(** [k] calls of [passTurn] on one room, emits dropped. *)
Definition advance (roomName : string) (k : nat) (st : Server) : Server :=
  Nat.iter k (λ st, (passTurn st roomName).1) st.

(** The member list stored under a room name; a name the registry does not
    have has no members. *)
Definition members (st : Server) (r : string) : list string :=
  match rooms st !! r with
  | Some room => users room
  | None => []
  end.

(** No member list holds a socket id twice. *)
Definition Distinct (st : Server) : Prop :=
  map_Forall (λ _ room, NoDup (users room)) (rooms st).

#[global] Instance Distinct_dec st : Decision (Distinct st).
Proof. unfold Distinct. apply _. Defined.

(** ** The scenarios of the specification, as event sequences *)

Definition in_r1 : Payload := mkPayload "r1" [].

Definition stroke : Payload := mkPayload "r1" [("x", 1); ("y", 2)].

(** A then B join ["r1"]. *)
Definition two_joined : Server :=
  run initial [("A", JoinRoom "r1"); ("B", JoinRoom "r1")].

(** A, B then C join ["r1"]. *)
Definition three_joined : Server :=
  run initial [("A", JoinRoom "r1"); ("B", JoinRoom "r1"); ("C", JoinRoom "r1")].

(** A, B then C join ["r1"], and the turn is passed once: B is active. *)
Definition three_joined_B_active : Server :=
  run three_joined [("A", PassTurn in_r1)].

(** * Lemmas *)

(** ** Array primitives *)

Lemma js_index_Some arr i x :
  js_index arr i = Some x → 0 ≤ i < Z.of_nat (length arr) ∧ x ∈ arr.
Proof.
  unfold js_index. case_decide; [|done]. intros Hx.
  pose proof (lookup_lt_Some _ _ _ Hx). split; [lia|].
  by eapply list_elem_of_lookup_2.
Qed.

Lemma js_index_in_range arr i :
  0 ≤ i < Z.of_nat (length arr) → js_index arr i = arr !! Z.to_nat i ∧ is_Some (js_index arr i).
Proof.
  intros Hi. unfold js_index. rewrite decide_True by lia.
  split; [done|]. apply lookup_lt_is_Some. lia.
Qed.

Lemma indexOf_from_range i arr x :
  indexOf_from i arr x = -1 ∨ i ≤ indexOf_from i arr x < i + Z.of_nat (length arr).
Proof.
  revert i. induction arr as [|y arr IH]; intros i; simpl; [by left|].
  case_decide; [right; lia|].
  destruct (IH (i + 1)) as [->|?]; [by left|right; lia].
Qed.

Lemma indexOf_range arr x :
  indexOf arr x = -1 ∨ 0 ≤ indexOf arr x < Z.of_nat (length arr).
Proof.
  destruct x as [x|]; simpl; [|by left].
  destruct (indexOf_from_range 0 arr x); [by left|right; lia].
Qed.

(** ** Reading the registry after an update *)

Lemma getActiveUser_lookup st r room :
  rooms st !! r = Some room → users room ≠ [] →
  getActiveUser st r = js_index (users room) (currentTurnIndex room).
Proof.
  intros Hr Hne. unfold getActiveUser. rewrite Hr.
  rewrite decide_False; [done|]. by destruct (users room).
Qed.

Lemma getActiveUser_absent st r : rooms st !! r = None → getActiveUser st r = None.
Proof. intros Hr. unfold getActiveUser. by rewrite Hr. Qed.

Lemma getActiveUser_Some st r u :
  getActiveUser st r = Some u →
  ∃ room, rooms st !! r = Some room ∧ u ∈ users room ∧ in_bounds room.
Proof.
  unfold getActiveUser. destruct (rooms st !! r) as [room|]; [|done].
  case_decide; [done|]. intros [??]%js_index_Some. by exists room.
Qed.

Lemma set_index_present r i st room :
  rooms st !! r = Some room →
  set_index r i st = mkServer (<[r := mkRoom (users room) i]> (rooms st)) (sockets st).
Proof.
  intros Hr. unfold set_index, set_rooms. f_equal.
  apply map_eq. intros r'. rewrite lookup_alter, lookup_insert.
  case_decide; [by rewrite Hr|done].
Qed.

Lemma set_users_present r us st room :
  rooms st !! r = Some room →
  set_users r us st = mkServer (<[r := mkRoom us (currentTurnIndex room)]> (rooms st)) (sockets st).
Proof.
  intros Hr. unfold set_users, set_rooms. f_equal.
  apply map_eq. intros r'. rewrite lookup_alter, lookup_insert.
  case_decide; [by rewrite Hr|done].
Qed.

(** ** Names found on the prototype *)

Lemma reads_prototype_present st r :
  is_Some (rooms st !! r) → reads_prototype st r = false.
Proof. intros [rm Hr]. unfold reads_prototype. by rewrite Hr. Qed.

Lemma reads_prototype_true st r :
  reads_prototype st r = true ↔ rooms st !! r = None ∧ inherited r = true.
Proof.
  unfold reads_prototype. destruct (rooms st !! r); [|naive_solver].
  split; [done|]. by intros [? _].
Qed.

Lemma broadcastTurnUpdate_present st r :
  is_Some (rooms st !! r) →
  broadcastTurnUpdate st r = [mkEmit (io_in r) (turn_update (getActiveUser st r))].
Proof.
  intros Hr. unfold broadcastTurnUpdate, getActiveUser_throws.
  by rewrite reads_prototype_present.
Qed.

(** ** [passTurn] in closed form *)

Lemma passTurn_present st r room :
  rooms st !! r = Some room → users room ≠ [] →
  let i := Z.rem (currentTurnIndex room + 1) (Z.of_nat (length (users room))) in
  let st' := mkServer (<[r := mkRoom (users room) i]> (rooms st)) (sockets st) in
  passTurn st r = (st', [mkEmit (io_in r) (turn_update (js_index (users room) i))]).
Proof.
  intros Hr Hne i st'. unfold passTurn. rewrite Hr.
  rewrite decide_False by (by destruct (users room)).
  rewrite (set_index_present _ _ _ _ Hr). fold i st'.
  assert (rooms st' !! r = Some (mkRoom (users room) i)) as Hr'.
  { subst st'; simpl. apply lookup_insert_eq. }
  rewrite broadcastTurnUpdate_present by (by rewrite Hr'). do 3 f_equal.
  by rewrite (getActiveUser_lookup st' r (mkRoom (users room) i)).
Qed.

Lemma passTurn_noop st r :
  (∀ room, rooms st !! r = Some room → users room = []) → passTurn st r = (st, []).
Proof.
  intros Hr. unfold passTurn. destruct (rooms st !! r) as [room|]; [|done].
  by rewrite (Hr room eq_refl).
Qed.

(** ** [join-room] in closed form *)

Lemma join_room_sockets id st r :
  sockets (join_room id st r).1
  = <[id := mkSocket (Some r) ({[r]} ∪ joined (socket_of st id))]> (sockets st).
Proof.
  unfold join_room, reads_prototype. simpl.
  destruct (rooms st !! r); [done|]. by destruct (inherited r).
Qed.

(** The handler that throws has subscribed the socket and stored the room
    name on it, and nothing else. *)
Lemma join_room_thrown id st r :
  join_room_throws st r = true →
  join_room id st r
  = (set_sockets (<[id := mkSocket (Some r) ({[r]} ∪ joined (socket_of st id))]>) st, []).
Proof.
  unfold join_room_throws. intros Ht. unfold join_room.
  replace (reads_prototype (set_sockets _ st) r) with (reads_prototype st r) by done.
  by rewrite Ht.
Qed.

Lemma join_room_rooms id st r :
  join_room_throws st r = false →
  let room0 := default (mkRoom [] 0) (rooms st !! r) in
  rooms (join_room id st r).1
  = <[r := mkRoom (users room0 ++ [id]) (currentTurnIndex room0)]> (rooms st).
Proof.
  intros Ht room0. unfold join_room_throws in Ht. unfold join_room.
  replace (reads_prototype (set_sockets _ st) r) with (reads_prototype st r) by done.
  rewrite Ht. simpl. subst room0.
  apply map_eq. intros r'. destruct (rooms st !! r) as [room|] eqn:Hr; simpl.
  - destruct (decide (r = r')) as [<-|Hne].
    + by rewrite lookup_alter_eq, lookup_insert_eq, Hr.
    + by rewrite lookup_alter_ne, lookup_insert_ne.
  - destruct (decide (r = r')) as [<-|Hne].
    + by rewrite lookup_alter_eq, !lookup_insert_eq.
    + by rewrite lookup_alter_ne, !lookup_insert_ne.
Qed.

Lemma join_room_emits id st r :
  join_room_throws st r = false →
  (join_room id st r).2
  = [mkEmit (io_in r) (turn_update (getActiveUser (join_room id st r).1 r))].
Proof.
  intros Ht. pose proof (join_room_rooms id st r Ht) as Hrooms. cbv zeta in Hrooms.
  assert (is_Some (rooms (join_room id st r).1 !! r)) as Hsome.
  { rewrite Hrooms, lookup_insert_eq. by eexists. }
  revert Hsome. unfold join_room_throws in Ht. unfold join_room.
  replace (reads_prototype (set_sockets _ st) r) with (reads_prototype st r) by done.
  rewrite Ht. cbn [fst snd]. apply broadcastTurnUpdate_present.
Qed.

(** ** [disconnect] in closed form, branch by branch *)

Lemma disconnect_absent id st :
  rooms st !! property_key (roomName (socket_of st id)) = None →
  disconnect id st = (set_sockets (delete id) st, []).
Proof. intros Hr. unfold disconnect. simpl. by rewrite Hr. Qed.

Section disconnect_present.
Context (id : string) (st : Server) (r : string) (room : Room).
Hypothesis Hkey : property_key (roomName (socket_of st id)) = r.
Hypothesis Hroom : rooms st !! r = Some room.

Let us := filter (λ u, u ≠ id) (users room).

(** The room empties: it is deleted and nothing is emitted. *)
Lemma disconnect_last :
  us = [] →
  disconnect id st = (mkServer (delete r (rooms st)) (delete id (sockets st)), []).
Proof.
  intros Hus. unfold disconnect. rewrite Hkey. simpl. rewrite Hroom.
  fold us. rewrite Hus. simpl. unfold set_rooms. simpl. f_equal. f_equal.
  apply map_eq. intros r'. destruct (decide (r = r')) as [<-|Hne].
  - by rewrite !lookup_delete_eq.
  - by rewrite !lookup_delete_ne, lookup_alter_ne.
Qed.

(** The active member leaves a room that stays: the pointer goes to 0. *)
Lemma disconnect_active :
  us ≠ [] → getActiveUser st r = Some id →
  disconnect id st
  = (mkServer (<[r := mkRoom us 0]> (rooms st)) (delete id (sockets st)),
     [mkEmit (io_in r) (turn_update (js_index us 0))]).
Proof.
  intros Hus Hact. unfold disconnect. rewrite Hkey. simpl. rewrite Hroom.
  fold us. rewrite decide_False by (by destruct us).
  replace (getActiveUser (set_sockets (delete id) st) r) with (getActiveUser st r) by done.
  rewrite bool_decide_eq_true_2 by done.
  erewrite set_users_present by (simpl; exact Hroom).
  erewrite set_index_present by (simpl; apply lookup_insert_eq).
  simpl. rewrite insert_insert_eq. f_equal.
  rewrite broadcastTurnUpdate_present by (simpl; rewrite lookup_insert_eq; by eexists).
  do 3 f_equal.
  erewrite getActiveUser_lookup; [| simpl; apply lookup_insert_eq | done]. done.
Qed.

(** Another member leaves: the pointer is looked up again in the
    filtered list, from what stands at the old index there. *)
Lemma disconnect_other :
  us ≠ [] → getActiveUser st r ≠ Some id →
  let j := indexOf us (js_index us (currentTurnIndex room)) in
  let i := if decide (j ≠ -1) then j else 0 in
  disconnect id st
  = (mkServer (<[r := mkRoom us i]> (rooms st)) (delete id (sockets st)),
     [mkEmit (io_in r) (turn_update (js_index us i))]).
Proof.
  intros Hus Hact j i. unfold disconnect. rewrite Hkey. simpl. rewrite Hroom.
  fold us. rewrite decide_False by (by destruct us).
  replace (getActiveUser (set_sockets (delete id) st) r) with (getActiveUser st r) by done.
  rewrite bool_decide_eq_false_2 by done.
  erewrite set_users_present by (simpl; exact Hroom).
  erewrite (getActiveUser_lookup _ r (mkRoom us (currentTurnIndex room)));
    [| simpl; apply lookup_insert_eq | done].
  simpl. fold j.
  assert (∀ k, set_index r k
                 (mkServer (<[r := mkRoom us (currentTurnIndex room)]> (rooms st))
                           (delete id (sockets st)))
               = mkServer (<[r := mkRoom us k]> (rooms st)) (delete id (sockets st))) as Hset.
  { intros k. erewrite set_index_present by (simpl; apply lookup_insert_eq).
    simpl. by rewrite insert_insert_eq. }
  subst i. case_decide; rewrite Hset; f_equal;
    (rewrite broadcastTurnUpdate_present by (simpl; rewrite lookup_insert_eq; by eexists));
    do 3 f_equal; (erewrite getActiveUser_lookup; [| simpl; apply lookup_insert_eq | done]);
    done.
Qed.
End disconnect_present.

(** ** The drawing handlers never touch the state *)

Lemma handleDrawEvent_state id handler st data :
  (∀ st data, (handler st data).1 = st) →
  (handleDrawEvent id handler st data).1 = st.
Proof. intros Hh. unfold handleDrawEvent. by case_decide. Qed.

Lemma draw_state st id ev data :
  draw_payload ev = Some data → (handle st id ev).1 = st.
Proof.
  destruct ev; intros [= ->]; simpl; by apply handleDrawEvent_state.
Qed.

Lemma handleDrawEvent_blocked id handler st data :
  getActiveUser st (room data) ≠ Some id →
  handleDrawEvent id handler st data = (st, []).
Proof. intros Hne. unfold handleDrawEvent. by rewrite decide_False. Qed.

Lemma handleDrawEvent_passed id handler st data :
  getActiveUser st (room data) = Some id →
  handleDrawEvent id handler st data = handler st data.
Proof. intros Hact. unfold handleDrawEvent. by rewrite decide_True. Qed.

(** ** The turn pointer stays in bounds *)

Lemma in_bounds_nonempty room : in_bounds room → users room ≠ [].
Proof. unfold in_bounds. destruct (users room); simpl; [lia|done]. Qed.

Lemma Bounds_passTurn st r : Bounds st → Bounds (passTurn st r).1.
Proof.
  intros Hb. destruct (rooms st !! r) as [room|] eqn:Hr.
  - pose proof (map_Forall_lookup_1 _ _ _ _ Hb Hr) as Hin. simpl in Hin.
    rewrite (passTurn_present _ _ _ Hr (in_bounds_nonempty _ Hin)). simpl.
    apply map_Forall_insert_2; [|done].
    unfold in_bounds in *. simpl. apply Z.rem_bound_pos; lia.
  - rewrite passTurn_noop; [done|]. intros room. by rewrite Hr.
Qed.

Lemma Bounds_join_room id st r : Bounds st → Bounds (join_room id st r).1.
Proof.
  intros Hb. destruct (join_room_throws st r) eqn:Ht.
  { by rewrite join_room_thrown. }
  unfold Bounds. rewrite join_room_rooms by done.
  apply map_Forall_insert_2; [|done].
  unfold in_bounds. simpl. rewrite length_app. simpl.
  destruct (rooms st !! r) as [room|] eqn:Hr; simpl; [|lia].
  pose proof (map_Forall_lookup_1 _ _ _ _ Hb Hr) as Hin. unfold in_bounds in Hin. lia.
Qed.

Lemma Bounds_disconnect id st : Bounds st → Bounds (disconnect id st).1.
Proof.
  intros Hb.
  destruct (rooms st !! property_key (roomName (socket_of st id))) as [room|] eqn:Hr.
  - destruct (decide (filter (λ u, u ≠ id) (users room) = [])) as [Hus|Hus].
    { rewrite (disconnect_last _ _ _ _ eq_refl Hr Hus). by apply map_Forall_delete. }
    assert (0 < Z.of_nat (length (filter (λ u, u ≠ id) (users room)))) as Hlen.
    { destruct (filter _ (users room)); simpl; [done|lia]. }
    destruct (decide (getActiveUser st (property_key (roomName (socket_of st id))) = Some id))
      as [Hact|Hact].
    + rewrite (disconnect_active _ _ _ _ eq_refl Hr Hus Hact).
      apply map_Forall_insert_2; [|done]. unfold in_bounds. simpl. lia.
    + rewrite (disconnect_other _ _ _ _ eq_refl Hr Hus Hact).
      apply map_Forall_insert_2; [|done]. unfold in_bounds. simpl.
      case_decide as Hj; [|lia].
      destruct (indexOf_range (filter (λ u, u ≠ id) (users room))
                  (js_index (filter (λ u, u ≠ id) (users room)) (currentTurnIndex room)));
        [done|lia].
  - by rewrite disconnect_absent.
Qed.

Lemma Bounds_handle st id ev : Bounds st → Bounds (handle st id ev).1.
Proof.
  intros Hb. destruct (draw_payload ev) as [data|] eqn:Hev.
  { by rewrite (draw_state _ _ _ _ Hev). }
  destruct ev; try done; cbn [handle].
  - by apply Bounds_join_room.
  - by apply Bounds_passTurn.
  - by apply Bounds_disconnect.
Qed.

Lemma Bounds_run st evs : Bounds st → Bounds (run st evs).
Proof.
  revert st. induction evs as [|[id ev] evs IH]; intros st Hb; [done|].
  simpl. destruct (handle_throws st id ev); [|apply IH]; by apply Bounds_handle.
Qed.

(** ** No empty room stays in the registry *)

Lemma NonEmpty_handle st id ev : NonEmpty st → NonEmpty (handle st id ev).1.
Proof.
  intros Hn. destruct (draw_payload ev) as [data|] eqn:Hev.
  { by rewrite (draw_state _ _ _ _ Hev). }
  destruct ev as [r|data| | | | |]; try done; cbn [handle].
  - destruct (join_room_throws st r) eqn:Ht.
    { by rewrite join_room_thrown. }
    unfold NonEmpty. rewrite join_room_rooms by done.
    apply map_Forall_insert_2; [|done]. simpl. by intros [_ ?]%app_eq_nil.
  - unfold pass_turn. destruct (rooms st !! room data) as [rm|] eqn:Hr.
    + pose proof (map_Forall_lookup_1 _ _ _ _ Hn Hr) as Hne. simpl in Hne.
      rewrite (passTurn_present _ _ _ Hr Hne). simpl.
      by apply map_Forall_insert_2.
    + rewrite passTurn_noop; [done|]. intros rm. by rewrite Hr.
  - destruct (rooms st !! property_key (roomName (socket_of st id))) as [rm|] eqn:Hr;
      [|by rewrite disconnect_absent].
    destruct (decide (filter (λ u, u ≠ id) (users rm) = [])) as [Hus|Hus].
    { rewrite (disconnect_last _ _ _ _ eq_refl Hr Hus). by apply map_Forall_delete. }
    destruct (decide (getActiveUser st (property_key (roomName (socket_of st id))) = Some id))
      as [Hact|Hact].
    + rewrite (disconnect_active _ _ _ _ eq_refl Hr Hus Hact).
      by apply map_Forall_insert_2.
    + rewrite (disconnect_other _ _ _ _ eq_refl Hr Hus Hact).
      by apply map_Forall_insert_2.
Qed.

Lemma NonEmpty_run st evs : NonEmpty st → NonEmpty (run st evs).
Proof.
  revert st. induction evs as [|[id ev] evs IH]; intros st Hn; [done|].
  simpl. destruct (handle_throws st id ev); [|apply IH]; by apply NonEmpty_handle.
Qed.

(** ** Repeated [passTurn] *)

Lemma advance_closed st r rm k :
  rooms st !! r = Some rm → in_bounds rm →
  advance r k st
  = mkServer
      (<[r := mkRoom (users rm)
                ((currentTurnIndex rm + Z.of_nat k) `mod` Z.of_nat (length (users rm)))]>
         (rooms st))
      (sockets st).
Proof.
  intros Hr Hin. unfold in_bounds in Hin. induction k as [|k IH].
  - simpl. rewrite Z.add_0_r, Z.mod_small by lia.
    destruct st as [rs ss], rm as [us i]. simpl in *. f_equal.
    symmetry. by apply insert_id.
  - unfold advance in *. simpl. rewrite IH.
    erewrite passTurn_present; [|simpl; apply lookup_insert_eq|simpl; by apply in_bounds_nonempty].
    simpl. rewrite insert_insert_eq. do 3 f_equal.
    rewrite Z.rem_mod_nonneg by (try apply Z.add_nonneg_nonneg; try apply Z.mod_pos_bound; lia).
    rewrite Zplus_mod_idemp_l. f_equal. lia.
Qed.

Lemma rotate_Permutation (l : list string) k : rotate k l ≡ₚ l.
Proof.
  unfold rotate. rewrite Permutation_app_comm. by rewrite take_drop.
Qed.

(** ** Who is subscribed to a room's group *)

Lemma elem_of_subscribers st r x :
  x ∈ subscribers st r ↔ ∃ sock, sockets st !! x = Some sock ∧ r ∈ joined sock.
Proof.
  unfold subscribers. rewrite elem_of_dom. unfold is_Some.
  by setoid_rewrite map_lookup_filter_Some.
Qed.

Lemma recipients_io_in st r m : recipients st (mkEmit (io_in r) m) = subscribers st r.
Proof. done. Qed.

Lemma subscribers_disconnect id st r :
  subscribers (disconnect id st).1 r = subscribers st r ∖ {[id]}.
Proof.
  assert (sockets (disconnect id st).1 = delete id (sockets st)) as Hs.
  { unfold disconnect. simpl.
    destruct (rooms st !! _); [|done]. case_decide; [done|].
    destruct (bool_decide _); [done|]. by case_decide. }
  apply set_eq. intros x. rewrite elem_of_difference, !elem_of_subscribers, Hs.
  rewrite elem_of_singleton. destruct (decide (x = id)) as [->|Hne].
  - rewrite lookup_delete_eq. naive_solver.
  - rewrite lookup_delete_ne by done. naive_solver.
Qed.

Lemma subscribers_join_room id st r :
  subscribers (join_room id st r).1 r = {[id]} ∪ subscribers st r.
Proof.
  apply set_eq. intros x.
  rewrite elem_of_union, !elem_of_subscribers, join_room_sockets, elem_of_singleton.
  destruct (decide (x = id)) as [->|Hne].
  - rewrite lookup_insert_eq. split; [by left|].
    intros _. eexists. split; [done|]. simpl. set_solver.
  - rewrite lookup_insert_ne by done. naive_solver.
Qed.

(** ** What [disconnect] does to the member lists *)

Lemma disconnect_frame id st r :
  r ≠ property_key (roomName (socket_of st id)) →
  rooms (disconnect id st).1 !! r = rooms st !! r.
Proof.
  intros Hne.
  destruct (rooms st !! property_key (roomName (socket_of st id))) as [rm|] eqn:Hr;
    [|by rewrite disconnect_absent].
  destruct (decide (filter (λ u, u ≠ id) (users rm) = [])) as [Hus|Hus].
  { rewrite (disconnect_last _ _ _ _ eq_refl Hr Hus). simpl. by rewrite lookup_delete_ne. }
  destruct (decide (getActiveUser st (property_key (roomName (socket_of st id))) = Some id))
    as [Hact|Hact].
  - rewrite (disconnect_active _ _ _ _ eq_refl Hr Hus Hact). simpl.
    by rewrite lookup_insert_ne.
  - rewrite (disconnect_other _ _ _ _ eq_refl Hr Hus Hact). simpl.
    by rewrite lookup_insert_ne.
Qed.

Lemma disconnect_removes id st rm :
  rooms (disconnect id st).1 !! property_key (roomName (socket_of st id)) = Some rm →
  id ∉ users rm.
Proof.
  destruct (rooms st !! property_key (roomName (socket_of st id))) as [rm0|] eqn:Hr;
    [|rewrite disconnect_absent by done; simpl; congruence].
  assert (id ∉ filter (λ u, u ≠ id) (users rm0)) as Hgone.
  { rewrite list_elem_of_filter. naive_solver. }
  destruct (decide (filter (λ u, u ≠ id) (users rm0) = [])) as [Hus|Hus].
  { rewrite (disconnect_last _ _ _ _ eq_refl Hr Hus). simpl. by rewrite lookup_delete_eq. }
  destruct (decide (getActiveUser st (property_key (roomName (socket_of st id))) = Some id))
    as [Hact|Hact].
  - rewrite (disconnect_active _ _ _ _ eq_refl Hr Hus Hact). simpl.
    rewrite lookup_insert_eq. by intros [= <-].
  - rewrite (disconnect_other _ _ _ _ eq_refl Hr Hus Hact). simpl.
    rewrite lookup_insert_eq. by intros [= <-].
Qed.

Lemma filter_others_nonempty (id : string) (us : list string) :
  NoDup us → (2 ≤ length us)%nat → filter (λ u, u ≠ id) us ≠ [].
Proof.
  destruct us as [|x [|y us]]; simpl; [lia|lia|]. intros Hnd _.
  apply NoDup_cons in Hnd as [Hx _]. rewrite not_elem_of_cons in Hx.
  destruct (decide (x = id)) as [->|Hxid].
  - rewrite filter_cons_False by naive_solver.
    by rewrite filter_cons_True by naive_solver.
  - by rewrite filter_cons_True by done.
Qed.

Lemma list_to_set_filter_others (id : string) (us : list string) :
  list_to_set (filter (λ u, u ≠ id) us) =@{gset string} list_to_set us ∖ {[id]}.
Proof.
  apply set_eq. intros x.
  rewrite elem_of_difference, !elem_of_list_to_set, list_elem_of_filter, elem_of_singleton.
  naive_solver.
Qed.

(** ** When [disconnect] keeps the turn where it was *)

Lemma indexOf_from_NoDup s (l : list string) k x :
  NoDup l → l !! k = Some x → indexOf_from s l x = s + Z.of_nat k.
Proof.
  revert s k. induction l as [|y l IH]; intros s k Hnd Hk; [done|].
  apply NoDup_cons in Hnd as [Hy Hnd]. simpl. destruct k as [|k]; simpl in Hk.
  - injection Hk as ->. rewrite decide_True by done. lia.
  - rewrite decide_False.
    + rewrite (IH (s + 1) k Hnd Hk). lia.
    + intros ->. apply Hy. by eapply list_elem_of_lookup_2.
Qed.

Lemma filter_lookup_prefix (id : string) (l : list string) i a :
  l !! i = Some a →
  (∀ k y, (k ≤ i)%nat → l !! k = Some y → y ≠ id) →
  filter (λ u, u ≠ id) l !! i = Some a.
Proof.
  revert i. induction l as [|y l IH]; intros i Hi Hpre; [done|].
  rewrite filter_cons_True by (apply (Hpre 0%nat); [lia|done]).
  destruct i as [|i]; [done|]. simpl in *. apply IH; [done|].
  intros k z Hk Hz. apply (Hpre (S k)); [lia|done].
Qed.

(** The leaver stands behind the active member in a duplicate-free member
    list: nothing before or at the turn pointer is removed, and the pointer
    and the active connection stay. *)
Lemma disconnect_keeps_turn st id r rm a :
  roomName (socket_of st id) = Some r →
  rooms st !! r = Some rm →
  NoDup (users rm) →
  getActiveUser st r = Some a →
  (∀ k y, (k ≤ Z.to_nat (currentTurnIndex rm))%nat → users rm !! k = Some y → y ≠ id) →
  rooms (disconnect id st).1 !! r
  = Some (mkRoom (filter (λ u, u ≠ id) (users rm)) (currentTurnIndex rm))
  ∧ getActiveUser (disconnect id st).1 r = Some a.
Proof.
  intros Hsock Hr Hnd Hact Hpre.
  assert (property_key (roomName (socket_of st id)) = r) as Hkey by (by rewrite Hsock).
  destruct (getActiveUser_Some _ _ _ Hact) as (rm' & Hr' & _ & Hin).
  assert (rm' = rm) as -> by congruence. unfold in_bounds in Hin.
  rewrite (getActiveUser_lookup _ _ _ Hr (in_bounds_nonempty _ Hin)) in Hact.
  unfold js_index in Hact. rewrite decide_True in Hact by lia.
  pose proof (filter_lookup_prefix id _ _ _ Hact Hpre) as Hkept.
  assert (a ≠ id) as Hne by (by eapply Hpre).
  assert (filter (λ u, u ≠ id) (users rm) ≠ []) as Hus.
  { intros Hnil. by rewrite Hnil in Hkept. }
  assert (js_index (filter (λ u, u ≠ id) (users rm)) (currentTurnIndex rm) = Some a) as Hjs.
  { unfold js_index. by rewrite decide_True by lia. }
  rewrite (disconnect_other _ _ _ _ Hkey Hr Hus);
    [|rewrite (getActiveUser_lookup _ _ _ Hr (in_bounds_nonempty _ Hin));
      unfold js_index; rewrite decide_True by lia; congruence].
  rewrite Hjs. simpl indexOf.
  rewrite (indexOf_from_NoDup 0 _ _ _ (NoDup_filter _ _ Hnd) Hkept).
  rewrite decide_True by lia. simpl.
  replace (0 + Z.of_nat (Z.to_nat (currentTurnIndex rm))) with (currentTurnIndex rm) by lia.
  split; [apply lookup_insert_eq|].
  rewrite (getActiveUser_lookup _ r (mkRoom (filter (λ u, u ≠ id) (users rm))
                                       (currentTurnIndex rm))); [done| |done].
  simpl. apply lookup_insert_eq.
Qed.

(** The join handler appends without looking: a second join of the same
    room by the same connection gives a duplicate. *)
Lemma join_twice_duplicates :
  rooms (run initial [("A", JoinRoom "r1"); ("A", JoinRoom "r1")]) !! "r1"
  = Some (mkRoom ["A"; "A"] 0).
Proof. by vm_compute. Qed.

(** * The claims *)

(** C2: for every room present in the registry, [0 ≤ activeIndex <
    len(members)] holds after every operation: whatever event is handled on
    whatever socket (join, pass-turn, a drawing-class event, disconnect), a
    registry in which every room has its turn pointer in bounds is taken to
    one with the same property, and so is every sequence of events. The
    precondition on joins (at most once per room, one room per connection) is
    not needed. *)
Theorem C2_turn_index_in_bounds st id ev evs :
  Bounds st →
  Bounds (handle st id ev).1 ∧ Bounds (run st evs).
Proof.
  intros Hb. split; [by apply Bounds_handle|by apply Bounds_run].
Qed.

Lemma C2_turn_index_in_bounds_witness :
  Bounds three_joined_B_active
  ∧ Bounds (handle three_joined_B_active "A" Disconnect).1
  ∧ Bounds (run three_joined_B_active [("C", Disconnect); ("B", PassTurn in_r1)]).
Proof.
  assert (Bounds three_joined_B_active) as Hb by (by apply (bool_decide_unpack _); vm_compute).
  split; [exact Hb|]. by apply C2_turn_index_in_bounds.
Defined.

(** The turn gate on a room name that does not read the prototype: a
    drawing-class event whose sender is not the active connection of the room
    it names is dropped in silence. The handler returns without throwing,
    makes no emit at all and leaves the state as it was. The room being
    absent from the registry, and the sender not being one of its members,
    are two such cases. *)
Lemma turn_gate_drops st id ev data :
  draw_payload ev = Some data →
  reads_prototype st (room data) = false →
  getActiveUser st (room data) ≠ Some id
  ∨ rooms st !! room data = None
  ∨ (∃ rm, rooms st !! room data = Some rm ∧ id ∉ users rm) →
  handle st id ev = (st, []) ∧ handle_throws st id ev = false.
Proof.
  intros Hev Hsafe Hblocked.
  assert (getActiveUser st (room data) ≠ Some id) as Hne.
  { destruct Hblocked as [?|[Habs|(rm & Hrm & Hid)]]; [done| |].
    - by rewrite getActiveUser_absent.
    - intros (rm' & Hrm' & Hin & _)%getActiveUser_Some. congruence. }
  destruct ev; simplify_eq/=; (split; [by apply handleDrawEvent_blocked|done]).
Qed.

(** C3 does not hold of the turn gate for the room names [Object.prototype]
    defines. A drawing event that names the room ["constructor"], which the
    registry does not have, from a sender who is not active anywhere, is not
    dropped in silence: [getActiveUser] finds the inherited value under that
    name, passes its [!room] guard and throws at [room.users.length]. No
    emit is made, and the uncaught exception ends the process: the event
    behind it, which the active connection sends and which would have been
    relayed, is not handled. *)
Theorem C3_inherited_room_name_throws :
  rooms two_joined !! "constructor" = None
  ∧ getActiveUser two_joined "r1" = Some "A"
  ∧ handle_throws two_joined "B" (Drawing (mkPayload "constructor" [("x", 1)])) = true
  ∧ (handle two_joined "B" (Drawing (mkPayload "constructor" [("x", 1)]))).2 = []
  ∧ (handle two_joined "A" (Drawing stroke)).2
    = [mkEmit (socket_to "A" "r1") (server_drawing stroke)]
  ∧ run two_joined [("B", Drawing (mkPayload "constructor" [("x", 1)]));
                    ("A", Drawing stroke); ("C", JoinRoom "r1")]
    = two_joined.
Proof. by vm_compute. Qed.

(** C8: a drawing-class event, relayed or dropped, leaves the whole state as
    it was: the set of rooms, every member list and every turn pointer.
    When the sender is the active connection the handler makes exactly one
    emit: start-drawing and drawing relay the payload, and finish-drawing a
    bare event, to the room without the sender; clear-canvas sends a bare
    event to the whole room, the sender's exclusion being absent. A dropped
    event emits nothing. *)
Theorem C8_drawing_leaves_registry st id ev data :
  draw_payload ev = Some data →
  (handle st id ev).1 = st
  ∧ (getActiveUser st (room data) ≠ Some id → (handle st id ev).2 = [])
  ∧ (getActiveUser st (room data) = Some id →
     ∃ e, (handle st id ev).2 = [e]
       ∧ e = match ev with
             | StartDrawing _ => mkEmit (socket_to id (room data)) (server_start_drawing data)
             | Drawing _ => mkEmit (socket_to id (room data)) (server_drawing data)
             | FinishDrawing _ => mkEmit (socket_to id (room data)) server_finish_drawing
             | _ => mkEmit (io_in (room data)) server_clear_canvas
             end
       ∧ recipients st e = match ev with
                           | ClearCanvas _ => subscribers st (room data)
                           | _ => subscribers st (room data) ∖ {[id]}
                           end).
Proof.
  intros Hev. split; [by eapply draw_state|]. split.
  - intros Hne. destruct ev; simpl in Hev; simplify_eq; cbn [handle];
      unfold start_drawing, drawing, finish_drawing, clear_canvas;
      by rewrite handleDrawEvent_blocked.
  - intros Hact. destruct ev; simpl in Hev; simplify_eq; cbn [handle]; eexists;
      (split; [unfold start_drawing, drawing, finish_drawing, clear_canvas;
               by rewrite handleDrawEvent_passed|]); done.
Qed.

Lemma C8_drawing_leaves_registry_witness :
  draw_payload (Drawing stroke) = Some stroke
  ∧ (handle two_joined "A" (Drawing stroke)).1 = two_joined
  ∧ (handle two_joined "A" (Drawing stroke)).2
    = [mkEmit (socket_to "A" "r1") (server_drawing stroke)]
  ∧ recipients two_joined (mkEmit (socket_to "A" "r1") (server_drawing stroke)) = {["B"]}.
Proof.
  destruct (C8_drawing_leaves_registry two_joined "A" (Drawing stroke) stroke eq_refl)
    as (Hst & _ & Hrelay).
  destruct (Hrelay ltac:(by vm_compute)) as (e & He & -> & Hrec).
  split; [reflexivity|]. split; [exact Hst|]. split; [exact He|].
  etrans; [exact Hrec|]. by vm_compute.
Defined.

(** C10: a pass-turn event that names an existing room with at least one
    member advances the turn and broadcasts a turn-update, whoever sent it:
    the handler never looks at the sender, so the result is the same for a
    member and for a non-member, and in a room of two or more a non-member's
    pass-turn moves the turn pointer. *)
Theorem C10_pass_turn_unchecked st id data rm :
  rooms st !! room data = Some rm →
  users rm ≠ [] →
  let n := Z.of_nat (length (users rm)) in
  let i := Z.rem (currentTurnIndex rm + 1) n in
  handle st id (PassTurn data)
  = (mkServer (<[room data := mkRoom (users rm) i]> (rooms st)) (sockets st),
     [mkEmit (io_in (room data)) (turn_update (js_index (users rm) i))])
  ∧ (in_bounds rm → 2 ≤ n → i ≠ currentTurnIndex rm).
Proof.
  intros Hr Hne n i. split.
  - cbn [handle]. unfold pass_turn. by rewrite (passTurn_present _ _ _ Hr Hne).
  - unfold in_bounds. fold n. intros Hin Hn. subst i.
    destruct (decide (currentTurnIndex rm + 1 = n)) as [Heq|Hlast].
    + rewrite Heq, Z.rem_same; lia.
    + rewrite Z.rem_small; lia.
Qed.

Lemma C10_pass_turn_unchecked_witness :
  rooms two_joined !! "r1" = Some (mkRoom ["A"; "B"] 0)
  ∧ ("Z" ∉ ["A"; "B"])
  ∧ handle two_joined "Z" (PassTurn in_r1)
    = (mkServer (<["r1" := mkRoom ["A"; "B"] 1]> (rooms two_joined)) (sockets two_joined),
       [mkEmit (io_in "r1") (turn_update (Some "B"))]).
Proof.
  assert (rooms two_joined !! room in_r1 = Some (mkRoom ["A"; "B"] 0)) as Hr
    by (by vm_compute).
  split; [exact Hr|]. split; [by apply (bool_decide_unpack _); vm_compute|].
  by destruct (C10_pass_turn_unchecked two_joined "Z" in_r1 _ Hr ltac:(done)) as [-> _].
Defined.

(** C6: when the last remaining member of a room leaves, the room's entry is
    deleted from the registry by that same disconnect, no turn-update (no
    emit at all) is made for it, and the active connection of that name is
    none afterwards. As every other handler leaves members in the rooms it
    touches, no room with an empty member list is ever in the registry after
    an event, along any sequence of events. *)
Theorem C6_last_member_leaves st id r rm :
  roomName (socket_of st id) = Some r →
  rooms st !! r = Some rm →
  users rm = [id] →
  rooms (disconnect id st).1 !! r = None
  ∧ (disconnect id st).2 = []
  ∧ getActiveUser (disconnect id st).1 r = None
  ∧ (NonEmpty st → ∀ evs, NonEmpty (run (disconnect id st).1 evs))
  ∧ (∀ evs, NonEmpty (run initial evs)).
Proof.
  intros Hsock Hr Hus.
  assert (property_key (roomName (socket_of st id)) = r) as Hkey by (by rewrite Hsock).
  assert (filter (λ u, u ≠ id) (users rm) = []) as Hnil.
  { rewrite Hus, filter_cons_False; [done|]. intros Hid. by apply Hid. }
  rewrite (disconnect_last _ _ _ _ Hkey Hr Hnil). simpl.
  split; [apply lookup_delete_eq|]. split; [done|]. split.
  - apply getActiveUser_absent. simpl. apply lookup_delete_eq.
  - split.
    + intros Hn evs. apply NonEmpty_run. by apply map_Forall_delete.
    + intros evs. apply NonEmpty_run. apply map_Forall_empty.
Qed.

Lemma C6_last_member_leaves_witness :
  roomName (socket_of (run initial [("A", JoinRoom "r1")]) "A") = Some "r1"
  ∧ rooms (run initial [("A", JoinRoom "r1")]) !! "r1" = Some (mkRoom ["A"] 0)
  ∧ rooms (disconnect "A" (run initial [("A", JoinRoom "r1")])).1 !! "r1" = None
  ∧ (disconnect "A" (run initial [("A", JoinRoom "r1")])).2 = []
  ∧ getActiveUser (disconnect "A" (run initial [("A", JoinRoom "r1")])).1 "r1" = None.
Proof.
  assert (roomName (socket_of (run initial [("A", JoinRoom "r1")]) "A") = Some "r1") as Hs
    by (by vm_compute).
  assert (rooms (run initial [("A", JoinRoom "r1")]) !! "r1" = Some (mkRoom ["A"] 0)) as Hr
    by (by vm_compute).
  split; [exact Hs|]. split; [exact Hr|].
  destruct (C6_last_member_leaves _ "A" "r1" _ Hs Hr eq_refl) as (H1 & H2 & H3 & _ & _).
  by repeat split.
Defined.

(** C4: in an existing room of [n ≥ 1] members one [passTurn] sets the turn
    pointer to [(activeIndex + 1) mod n] and leaves the member list alone;
    [k] calls in a row, with no join or leave between them, set it to
    [(activeIndex + k) mod n]. So the active members seen before the first
    call and after each of the next [n - 1] are the member list read
    cyclically from the starting member, in join order, every position once,
    and the [n]-th call gives back the starting state. On a room that is
    absent or has no members [passTurn] changes nothing and emits nothing. *)
Theorem C4_round_robin st r :
  (∀ rm, rooms st !! r = Some rm → users rm ≠ [] → 0 ≤ currentTurnIndex rm →
     rooms (passTurn st r).1 !! r
     = Some (mkRoom (users rm)
               ((currentTurnIndex rm + 1) `mod` Z.of_nat (length (users rm)))))
  ∧ (∀ rm, rooms st !! r = Some rm → in_bounds rm →
     let n := length (users rm) in
     (∀ k, rooms (advance r k st) !! r
           = Some (mkRoom (users rm)
                     ((currentTurnIndex rm + Z.of_nat k) `mod` Z.of_nat n)))
     ∧ (λ k, getActiveUser (advance r k st) r) <$> seq 0 n
       = Some <$> rotate (Z.to_nat (currentTurnIndex rm)) (users rm)
     ∧ rotate (Z.to_nat (currentTurnIndex rm)) (users rm) ≡ₚ users rm
     ∧ advance r n st = st)
  ∧ ((∀ rm, rooms st !! r = Some rm → users rm = []) → passTurn st r = (st, [])).
Proof.
  split; [|split].
  - intros rm Hr Hne Hi. rewrite (passTurn_present _ _ _ Hr Hne). simpl.
    rewrite lookup_insert_eq. do 2 f_equal.
    apply Z.rem_mod_nonneg; [lia|]. destruct (users rm); simpl; [done|lia].
  - intros rm Hr Hin n. pose proof Hin as Hin'. unfold in_bounds in Hin'. fold n in Hin'.
    split; [|split; [|split]].
    + intros k. rewrite (advance_closed _ _ _ _ Hr Hin). simpl. apply lookup_insert_eq.
    + apply list_eq. intros j. rewrite !list_lookup_fmap.
      destruct (decide (j < n)%nat) as [Hj|Hj].
      * rewrite lookup_seq_lt by done. simpl.
        rewrite lookup_rotate_r by done. fold n.
        rewrite (advance_closed _ _ _ _ Hr Hin).
        erewrite getActiveUser_lookup;
          [|simpl; apply lookup_insert_eq|simpl; by apply in_bounds_nonempty].
        simpl. fold n. unfold rotate_nat_add. rewrite Z2Nat.id by lia.
        pose proof (Z.mod_pos_bound (currentTurnIndex rm + Z.of_nat j) (Z.of_nat n)
                      ltac:(lia)) as Hm.
        destruct (js_index_in_range (users rm)
                    ((currentTurnIndex rm + Z.of_nat j) `mod` Z.of_nat n)
                    ltac:(fold n; lia)) as [-> [x Hx]].
        rewrite Hx. by destruct (users rm !! _).
      * rewrite lookup_seq_ge by lia. simpl.
        rewrite (lookup_ge_None_2 (rotate _ _)); [done|]. rewrite length_rotate. fold n. lia.
    + apply rotate_Permutation.
    + rewrite (advance_closed _ _ _ _ Hr Hin). fold n.
      replace ((currentTurnIndex rm + Z.of_nat n) `mod` Z.of_nat n)
        with (currentTurnIndex rm).
      * destruct st as [rs ss], rm as [us i]. simpl in *. f_equal. by apply insert_id.
      * rewrite <- (Z.mul_1_l (Z.of_nat n)) at 1. rewrite Z.mod_add by lia.
        by rewrite Z.mod_small by lia.
  - apply passTurn_noop.
Qed.

Lemma C4_round_robin_witness :
  rooms three_joined_B_active !! "r1" = Some (mkRoom ["A"; "B"; "C"] 1)
  ∧ rooms (passTurn three_joined_B_active "r1").1 !! "r1" = Some (mkRoom ["A"; "B"; "C"] 2)
  ∧ (λ k, getActiveUser (advance "r1" k three_joined_B_active) "r1") <$> seq 0 3
    = [Some "B"; Some "C"; Some "A"]
  ∧ advance "r1" 3 three_joined_B_active = three_joined_B_active
  ∧ passTurn initial "r1" = (initial, []).
Proof.
  assert (rooms three_joined_B_active !! "r1" = Some (mkRoom ["A"; "B"; "C"] 1)) as Hr
    by (by vm_compute).
  destruct (C4_round_robin three_joined_B_active "r1") as (Hone & Hmany & _).
  destruct (C4_round_robin initial "r1") as (_ & _ & Hnoop).
  split; [exact Hr|]. split; [|split; [|split]].
  - by rewrite (Hone _ Hr ltac:(done) ltac:(simpl; lia)).
  - destruct (Hmany _ Hr ltac:(unfold in_bounds; simpl; lia)) as (_ & Hvisit & _).
    exact Hvisit.
  - destruct (Hmany _ Hr ltac:(unfold in_bounds; simpl; lia)) as (_ & _ & _ & Hback).
    exact Hback.
  - apply Hnoop. intros rm Hrm. by vm_compute in Hrm.
Defined.

(** C5: in a room of two or more (distinct) members, when the active
    connection disconnects it is taken out of the member list, the turn
    pointer is set to 0, and one turn-update carrying the member now at
    index 0 is sent to the room's group, which the leaver is no longer part
    of; when the group held the room's members, the recipients are the
    remaining members. *)
Theorem C5_active_member_leaves st id r rm :
  roomName (socket_of st id) = Some r →
  rooms st !! r = Some rm →
  getActiveUser st r = Some id →
  NoDup (users rm) →
  (2 ≤ length (users rm))%nat →
  ∃ next rest,
    filter (λ u, u ≠ id) (users rm) = next :: rest
    ∧ (id ∉ next :: rest)
    ∧ rooms (disconnect id st).1 !! r = Some (mkRoom (next :: rest) 0)
    ∧ getActiveUser (disconnect id st).1 r = Some next
    ∧ (disconnect id st).2 = [mkEmit (io_in r) (turn_update (Some next))]
    ∧ recipients (disconnect id st).1 (mkEmit (io_in r) (turn_update (Some next)))
      = subscribers st r ∖ {[id]}
    ∧ (subscribers st r = list_to_set (users rm) →
       recipients (disconnect id st).1 (mkEmit (io_in r) (turn_update (Some next)))
       = list_to_set (next :: rest)).
Proof.
  intros Hsock Hr Hact Hnd Hlen.
  assert (property_key (roomName (socket_of st id)) = r) as Hkey by (by rewrite Hsock).
  pose proof (filter_others_nonempty id _ Hnd Hlen) as Hus.
  pose proof (disconnect_active _ _ _ _ Hkey Hr Hus Hact) as Hd.
  pose proof (subscribers_disconnect id st r) as Hsub.
  destruct (filter (λ u, u ≠ id) (users rm)) as [|next rest] eqn:Hf; [done|].
  exists next, rest. rewrite Hd. simpl. unfold recipients. simpl.
  rewrite Hd in Hsub. simpl in Hsub.
  split; [done|]. split.
  { rewrite <- Hf, list_elem_of_filter. naive_solver. }
  split; [apply lookup_insert_eq|]. split.
  { erewrite getActiveUser_lookup; [|simpl; apply lookup_insert_eq|done]. done. }
  split; [done|]. split; [done|].
  intros Hgroup. by rewrite Hsub, Hgroup, <- list_to_set_filter_others, Hf.
Qed.

Lemma C5_active_member_leaves_witness :
  roomName (socket_of three_joined "A") = Some "r1"
  ∧ rooms three_joined !! "r1" = Some (mkRoom ["A"; "B"; "C"] 0)
  ∧ getActiveUser three_joined "r1" = Some "A"
  ∧ subscribers three_joined "r1" = list_to_set ["A"; "B"; "C"]
  ∧ rooms (disconnect "A" three_joined).1 !! "r1" = Some (mkRoom ["B"; "C"] 0)
  ∧ (disconnect "A" three_joined).2 = [mkEmit (io_in "r1") (turn_update (Some "B"))]
  ∧ recipients (disconnect "A" three_joined).1 (mkEmit (io_in "r1") (turn_update (Some "B")))
    = list_to_set ["B"; "C"].
Proof.
  assert (roomName (socket_of three_joined "A") = Some "r1") as Hs by (by vm_compute).
  assert (rooms three_joined !! "r1" = Some (mkRoom ["A"; "B"; "C"] 0)) as Hr
    by (by vm_compute).
  assert (getActiveUser three_joined "r1" = Some "A") as Ha by (by vm_compute).
  assert (subscribers three_joined "r1" = list_to_set ["A"; "B"; "C"]) as Hg
    by (by vm_compute).
  assert (NoDup ["A"; "B"; "C"]) as Hnd by (by apply (bool_decide_unpack _); vm_compute).
  destruct (C5_active_member_leaves three_joined "A" "r1" _ Hs Hr Ha Hnd ltac:(simpl; lia))
    as (next & rest & Hf & _ & Hrooms & _ & Hemit & _ & Hrec).
  injection Hf as <- <-.
  repeat (split; [done|]). by apply Hrec.
Defined.

(** A join under a room name that does not read the prototype creates the
    room when it is absent, with turn pointer 0 and no members, and appends
    the joining connection to the member list (which it is not yet in); the
    turn pointer of a room that existed stays as it was. One turn-update carrying the room's active connection is sent to
    the room's group, which now holds the joiner; when the group held the
    room's members before, the recipients are the members after the join.
    In particular, after A and then B join a room that was absent, the
    members are [A, B], the turn pointer is 0, and the turn-update of B's
    join carries A and reaches both. *)
Lemma join_room_returns st id r :
  let room0 := default (mkRoom [] 0) (rooms st !! r) in
  join_room_throws st r = false →
  id ∉ users room0 →
  let res := join_room id st r in
  rooms res.1 !! r = Some (mkRoom (users room0 ++ [id]) (currentTurnIndex room0))
  ∧ (∀ r', r' ≠ r → rooms res.1 !! r' = rooms st !! r')
  ∧ res.2 = [mkEmit (io_in r) (turn_update (getActiveUser res.1 r))]
  ∧ getActiveUser res.1 r = js_index (users room0 ++ [id]) (currentTurnIndex room0)
  ∧ (∀ e, e ∈ res.2 → recipients res.1 e = {[id]} ∪ subscribers st r)
  ∧ (subscribers st r = list_to_set (users room0) →
     ∀ e, e ∈ res.2 → recipients res.1 e = list_to_set (users room0 ++ [id]))
  ∧ (rooms st !! r = None →
     ∀ b, let res2 := join_room b res.1 r in
       rooms res2.1 !! r = Some (mkRoom [id; b] 0)
       ∧ res2.2 = [mkEmit (io_in r) (turn_update (Some id))]
       ∧ ∀ e, e ∈ res2.2 → id ∈ recipients res2.1 e ∧ b ∈ recipients res2.1 e).
Proof.
  intros room0 Ht _ res.
  assert (rooms res.1 !! r = Some (mkRoom (users room0 ++ [id]) (currentTurnIndex room0)))
    as Hr.
  { subst res. rewrite join_room_rooms by done. apply lookup_insert_eq. }
  assert (join_room_throws res.1 r = false) as Ht2.
  { apply reads_prototype_present. by rewrite Hr. }
  pose proof (join_room_emits id st r Ht) as Hemit. fold res in Hemit.
  assert (∀ e, e ∈ res.2 → recipients res.1 e = {[id]} ∪ subscribers st r) as Hrec.
  { intros e He. rewrite Hemit in He.
    apply list_elem_of_singleton in He as ->. rewrite recipients_io_in.
    apply subscribers_join_room. }
  split; [done|]. split.
  { intros r' Hne. subst res. rewrite join_room_rooms by done. by rewrite lookup_insert_ne. }
  split; [done|]. split.
  { rewrite (getActiveUser_lookup _ _ _ Hr); [done|]. simpl. by intros [_ ?]%app_eq_nil. }
  split; [done|]. split.
  { intros Hgroup e He. rewrite (Hrec e He), Hgroup, list_to_set_app_L. simpl. set_solver. }
  intros Habs b res2.
  assert (rooms res2.1 !! r = Some (mkRoom [id; b] 0)) as Hr2.
  { subst res2. rewrite join_room_rooms, Hr, lookup_insert_eq by done. simpl.
    subst room0. by rewrite Habs. }
  split; [done|]. split.
  { subst res2. rewrite join_room_emits by done. do 3 f_equal.
    by rewrite (getActiveUser_lookup _ _ _ Hr2). }
  intros e He. subst res2. rewrite join_room_emits in He by done.
  apply list_elem_of_singleton in He as ->. rewrite recipients_io_in.
  rewrite subscribers_join_room. subst res. rewrite subscribers_join_room. set_solver.
Qed.

(** C7 does not hold of the join handler for the room names
    [Object.prototype] defines. The first join of the room ["constructor"],
    absent from the registry, creates no room: [rooms[roomName]] is the
    inherited value, so the creation is skipped and [.users.push] throws.
    The socket has been subscribed and has the name stored on it by then; no
    member list holds it, no turn-update is emitted, and the process ends
    with the uncaught exception. *)
Theorem C7_join_inherited_name_throws :
  rooms initial !! "constructor" = None
  ∧ join_room_throws initial "constructor" = true
  ∧ handle_throws initial "A" (JoinRoom "constructor") = true
  ∧ rooms (join_room "A" initial "constructor").1 = rooms initial
  ∧ (join_room "A" initial "constructor").2 = []
  ∧ roomName (socket_of (join_room "A" initial "constructor").1 "A") = Some "constructor"
  ∧ run initial [("A", JoinRoom "constructor"); ("B", JoinRoom "r1")]
    = (join_room "A" initial "constructor").1.
Proof. by vm_compute. Qed.

(** C9: when a connection joins [r1] and then a different room [r2] without
    leaving [r1] (both joins ran to their end: neither handler threw), the
    room name stored on it is overwritten with [r2]; its
    disconnect then takes it out of [r2]'s member list only, every other
    room's record is left as it was, and the connection is still in [r1]'s
    member list afterwards. *)
Theorem C9_second_join_leaks st id r1 r2 :
  r1 ≠ r2 →
  join_room_throws st r1 = false →
  join_room_throws (join_room id st r1).1 r2 = false →
  let st1 := (join_room id st r1).1 in
  let st2 := (join_room id st1 r2).1 in
  let st3 := (disconnect id st2).1 in
  roomName (socket_of st1 id) = Some r1
  ∧ roomName (socket_of st2 id) = Some r2
  ∧ (∃ rm1 rm2, rooms st2 !! r1 = Some rm1 ∧ id ∈ users rm1
                ∧ rooms st2 !! r2 = Some rm2 ∧ id ∈ users rm2)
  ∧ (∀ rm, rooms st3 !! r2 = Some rm → id ∉ users rm)
  ∧ (∀ r, r ≠ r2 → rooms st3 !! r = rooms st2 !! r)
  ∧ (∃ rm, rooms st3 !! r1 = Some rm ∧ id ∈ users rm).
Proof.
  intros Hne Ht1 Ht2 st1 st2 st3.
  assert (roomName (socket_of st2 id) = Some r2) as Hs2.
  { subst st2. unfold socket_of. by rewrite join_room_sockets, lookup_insert_eq. }
  assert (property_key (roomName (socket_of st2 id)) = r2) as Hkey by (by rewrite Hs2).
  assert (∃ rm1, rooms st2 !! r1 = Some rm1 ∧ id ∈ users rm1) as (rm1 & Hr1 & Hin1).
  { subst st2 st1. rewrite join_room_rooms, lookup_insert_ne by done.
    rewrite join_room_rooms, lookup_insert_eq by done.
    eexists. split; [done|]. simpl. set_solver. }
  assert (∀ r, r ≠ r2 → rooms st3 !! r = rooms st2 !! r) as Hframe.
  { intros r Hr. subst st3. apply disconnect_frame. by rewrite Hkey. }
  split.
  { subst st1. unfold socket_of. by rewrite join_room_sockets, lookup_insert_eq. }
  split; [done|]. split.
  { exists rm1. eexists. split; [done|]. split; [done|].
    subst st2. rewrite join_room_rooms, lookup_insert_eq by done.
    split; [done|]. simpl. set_solver. }
  split.
  { intros rm Hrm. subst st3. rewrite <- Hkey in Hrm. by eapply disconnect_removes. }
  split; [done|].
  exists rm1. by rewrite Hframe.
Qed.

Lemma C9_second_join_leaks_witness :
  "r1" ≠ "r2"
  ∧ join_room_throws initial "r1" = false
  ∧ join_room_throws (join_room "A" initial "r1").1 "r2" = false
  ∧ roomName (socket_of (run initial [("A", JoinRoom "r1"); ("A", JoinRoom "r2")]) "A")
    = Some "r2"
  ∧ ∃ rm,
      rooms (run initial [("A", JoinRoom "r1"); ("A", JoinRoom "r2"); ("A", Disconnect)])
        !! "r1" = Some rm
      ∧ "A" ∈ users rm.
Proof.
  assert ("r1" ≠ "r2") as Hne by done.
  destruct (C9_second_join_leaks initial "A" "r1" "r2" Hne eq_refl eq_refl)
    as (_ & Hs & _ & _ & _ & Hleak).
  split; [exact Hne|]. split; [reflexivity|]. split; [reflexivity|].
  split; [exact Hs|exact Hleak].
Defined.

(** C1 does not hold of the disconnect handler: the handler reads the
    active connection after it has filtered the member list, at the old
    index. With members [A, B, C] and B active (index 1), the disconnect of
    A, who is not active, leaves members [B, C] with the turn pointer still
    1, so that the active connection has changed from B to C, and the
    turn-update announces C. *)
Theorem C1_disconnect_moves_turn :
  rooms three_joined_B_active !! "r1" = Some (mkRoom ["A"; "B"; "C"] 1)
  ∧ roomName (socket_of three_joined_B_active "A") = Some "r1"
  ∧ getActiveUser three_joined_B_active "r1" = Some "B"
  ∧ rooms (disconnect "A" three_joined_B_active).1 !! "r1" = Some (mkRoom ["B"; "C"] 1)
  ∧ getActiveUser (disconnect "A" three_joined_B_active).1 "r1" = Some "C"
  ∧ (disconnect "A" three_joined_B_active).2
    = [mkEmit (io_in "r1") (turn_update (Some "C"))].
Proof. by vm_compute. Qed.

(** * Further properties of the handlers *)

(** ** The member list after a disconnect *)

Lemma filter_others_id (id : string) (l : list string) :
  id ∉ l → filter (λ u, u ≠ id) l = l.
Proof.
  induction l as [|y l IH]; [done|]. intros [Hy Hl]%not_elem_of_cons.
  rewrite filter_cons_True by done. by rewrite IH.
Qed.

Lemma filter_lookup_after (id : string) (l : list string) j k :
  NoDup l → l !! j = Some id → (j ≤ k)%nat →
  filter (λ u, u ≠ id) l !! k = l !! S k.
Proof.
  revert j k. induction l as [|y l IH]; intros j k Hnd Hj Hk; [done|].
  apply NoDup_cons in Hnd as [Hy Hnd]. destruct j as [|j]; simpl in Hj.
  - injection Hj as ->. rewrite filter_cons_False by naive_solver.
    by rewrite filter_others_id.
  - assert (y ≠ id) as Hne.
    { intros ->. apply Hy. by eapply list_elem_of_lookup_2. }
    rewrite filter_cons_True by done.
    destruct k as [|k]; [lia|]. simpl. apply (IH j); [done|done|lia].
Qed.

Lemma members_disconnect id st r :
  members (disconnect id st).1 r
  = if decide (r = property_key (roomName (socket_of st id)))
    then filter (λ u, u ≠ id) (members st r)
    else members st r.
Proof.
  unfold members. case_decide as Hr; [|by rewrite disconnect_frame].
  subst r. destruct (rooms st !! property_key (roomName (socket_of st id))) as [rm|] eqn:Hrm;
    [|rewrite disconnect_absent by done; simpl; by rewrite Hrm].
  destruct (decide (filter (λ u, u ≠ id) (users rm) = [])) as [Hus|Hus].
  { rewrite (disconnect_last _ _ _ _ eq_refl Hrm Hus). simpl.
    by rewrite lookup_delete_eq, Hus. }
  destruct (decide (getActiveUser st (property_key (roomName (socket_of st id))) = Some id))
    as [Hact|Hact].
  - rewrite (disconnect_active _ _ _ _ eq_refl Hrm Hus Hact). simpl.
    by rewrite lookup_insert_eq.
  - rewrite (disconnect_other _ _ _ _ eq_refl Hrm Hus Hact). simpl.
    by rewrite lookup_insert_eq.
Qed.

(** X1: when a member that is not the active one disconnects and stands
    behind the active member in a duplicate-free member list (nothing at or
    before the turn pointer is the leaver), the turn pointer keeps its value
    and the active connection stays the same. *)
Theorem X1_leaver_behind_keeps_turn st id r rm a :
  roomName (socket_of st id) = Some r →
  rooms st !! r = Some rm →
  NoDup (users rm) →
  getActiveUser st r = Some a →
  (∀ k y, (k ≤ Z.to_nat (currentTurnIndex rm))%nat → users rm !! k = Some y → y ≠ id) →
  rooms (disconnect id st).1 !! r
  = Some (mkRoom (filter (λ u, u ≠ id) (users rm)) (currentTurnIndex rm))
  ∧ getActiveUser (disconnect id st).1 r = Some a.
Proof. apply disconnect_keeps_turn. Qed.

Lemma X1_leaver_behind_keeps_turn_witness :
  rooms three_joined_B_active !! "r1" = Some (mkRoom ["A"; "B"; "C"] 1)
  ∧ getActiveUser three_joined_B_active "r1" = Some "B"
  ∧ rooms (disconnect "C" three_joined_B_active).1 !! "r1" = Some (mkRoom ["A"; "B"] 1)
  ∧ getActiveUser (disconnect "C" three_joined_B_active).1 "r1" = Some "B".
Proof.
  assert (rooms three_joined_B_active !! "r1" = Some (mkRoom ["A"; "B"; "C"] 1)) as Hr
    by (by vm_compute).
  assert (getActiveUser three_joined_B_active "r1" = Some "B") as Ha by (by vm_compute).
  split; [exact Hr|]. split; [exact Ha|].
  apply (X1_leaver_behind_keeps_turn three_joined_B_active "C" "r1"
           (mkRoom ["A"; "B"; "C"] 1) "B");
    [by vm_compute|exact Hr|by apply (bool_decide_unpack _); vm_compute|exact Ha|].
  intros [|[|k]] y Hk Hy; simpl in *; [by injection Hy as <-|by injection Hy as <-|lia].
Defined.

(** X2: when the leaver stands before the active member in a duplicate-free
    member list and the active member is not the last one, the turn pointer
    keeps its numeric value over the shortened list: the turn goes to the
    member that followed the active one, and the turn-update announces that
    member. *)
Theorem X2_leaver_before_active_skips st id r rm j b :
  roomName (socket_of st id) = Some r →
  rooms st !! r = Some rm →
  NoDup (users rm) →
  0 ≤ currentTurnIndex rm →
  users rm !! j = Some id →
  (j < Z.to_nat (currentTurnIndex rm))%nat →
  users rm !! S (Z.to_nat (currentTurnIndex rm)) = Some b →
  rooms (disconnect id st).1 !! r
  = Some (mkRoom (filter (λ u, u ≠ id) (users rm)) (currentTurnIndex rm))
  ∧ getActiveUser (disconnect id st).1 r = Some b
  ∧ getActiveUser st r ≠ Some b
  ∧ (disconnect id st).2 = [mkEmit (io_in r) (turn_update (Some b))].
Proof.
  intros Hsock Hr Hnd Hi Hj Hlt Hb.
  assert (property_key (roomName (socket_of st id)) = r) as Hkey by (by rewrite Hsock).
  set (i := Z.to_nat (currentTurnIndex rm)) in *.
  pose proof (lookup_lt_Some _ _ _ Hb) as Hlen.
  assert (users rm ≠ []) as Hne by (intros Hnil; rewrite Hnil in Hlen; simpl in Hlen; lia).
  assert (getActiveUser st r = users rm !! i) as Hact.
  { rewrite (getActiveUser_lookup _ _ _ Hr Hne). unfold js_index. by rewrite decide_True. }
  assert (filter (λ u, u ≠ id) (users rm) !! i = Some b) as Hkept.
  { rewrite (filter_lookup_after id _ j i Hnd Hj) by lia. done. }
  assert (filter (λ u, u ≠ id) (users rm) ≠ []) as Hus.
  { intros Hnil. by rewrite Hnil in Hkept. }
  assert (getActiveUser st r ≠ Some b) as Hchg.
  { rewrite Hact. intros Ha. pose proof (NoDup_lookup _ _ _ _ Hnd Ha Hb). lia. }
  assert (getActiveUser st r ≠ Some id) as Hnot.
  { rewrite Hact. intros Ha. pose proof (NoDup_lookup _ _ _ _ Hnd Ha Hj). lia. }
  rewrite (disconnect_other _ _ _ _ Hkey Hr Hus Hnot).
  assert (js_index (filter (λ u, u ≠ id) (users rm)) (currentTurnIndex rm) = Some b) as Hjs.
  { unfold js_index. by rewrite decide_True. }
  rewrite Hjs. simpl indexOf.
  rewrite (indexOf_from_NoDup 0 _ _ _ (NoDup_filter _ _ Hnd) Hkept).
  rewrite decide_True by lia. simpl.
  replace (0 + Z.of_nat i) with (currentTurnIndex rm) by lia. rewrite Hjs.
  split; [apply lookup_insert_eq|]. split; [|done].
  rewrite (getActiveUser_lookup _ r (mkRoom (filter (λ u, u ≠ id) (users rm))
                                       (currentTurnIndex rm))); [done| |done].
  simpl. apply lookup_insert_eq.
Qed.

Lemma X2_leaver_before_active_skips_witness :
  rooms three_joined_B_active !! "r1" = Some (mkRoom ["A"; "B"; "C"] 1)
  ∧ rooms (disconnect "A" three_joined_B_active).1 !! "r1" = Some (mkRoom ["B"; "C"] 1)
  ∧ getActiveUser (disconnect "A" three_joined_B_active).1 "r1" = Some "C"
  ∧ getActiveUser three_joined_B_active "r1" ≠ Some "C"
  ∧ (disconnect "A" three_joined_B_active).2 = [mkEmit (io_in "r1") (turn_update (Some "C"))].
Proof.
  assert (rooms three_joined_B_active !! "r1" = Some (mkRoom ["A"; "B"; "C"] 1)) as Hr
    by (by vm_compute).
  split; [exact Hr|].
  apply (X2_leaver_before_active_skips three_joined_B_active "A" "r1"
           (mkRoom ["A"; "B"; "C"] 1) 0%nat "C");
    [by vm_compute|exact Hr|by apply (bool_decide_unpack _); vm_compute
    |simpl; lia|done|simpl; lia|done].
Defined.

(** X3: when the leaver stands before the active member in a duplicate-free
    member list and the active member is the last one, nothing stands at the
    old index of the shortened list: the lookup finds no position, the turn
    pointer is reset to 0, and the first remaining member becomes active. In
    a room whose turn pointer was 2 or more that is another connection than
    the one that was active. *)
Theorem X3_leaver_before_last_active_resets st id r rm j :
  roomName (socket_of st id) = Some r →
  rooms st !! r = Some rm →
  NoDup (users rm) →
  users rm !! j = Some id →
  (j < Z.to_nat (currentTurnIndex rm))%nat →
  Z.of_nat (length (users rm)) = currentTurnIndex rm + 1 →
  rooms (disconnect id st).1 !! r = Some (mkRoom (filter (λ u, u ≠ id) (users rm)) 0)
  ∧ getActiveUser (disconnect id st).1 r = filter (λ u, u ≠ id) (users rm) !! 0%nat
  ∧ is_Some (getActiveUser (disconnect id st).1 r)
  ∧ (2 ≤ currentTurnIndex rm → getActiveUser (disconnect id st).1 r ≠ getActiveUser st r).
Proof.
  intros Hsock Hr Hnd Hj Hlt Hlast.
  assert (property_key (roomName (socket_of st id)) = r) as Hkey by (by rewrite Hsock).
  set (i := Z.to_nat (currentTurnIndex rm)) in *.
  assert (0 ≤ currentTurnIndex rm) as Hi by lia.
  destruct (lookup_lt_is_Some_2 (users rm) i ltac:(lia)) as [a Ha].
  assert (users rm ≠ []) as Hne by (intros Hnil; by rewrite Hnil in Ha).
  assert (getActiveUser st r = Some a) as Hact.
  { rewrite (getActiveUser_lookup _ _ _ Hr Hne). unfold js_index. by rewrite decide_True. }
  assert (filter (λ u, u ≠ id) (users rm) !! (i - 1)%nat = Some a) as Hkept.
  { rewrite (filter_lookup_after id _ j (i - 1) Hnd Hj) by lia.
    by replace (S (i - 1)) with i by lia. }
  assert (filter (λ u, u ≠ id) (users rm) !! i = None) as Hgone.
  { rewrite (filter_lookup_after id _ j i Hnd Hj) by lia. apply lookup_ge_None_2. lia. }
  assert (filter (λ u, u ≠ id) (users rm) ≠ []) as Hus.
  { intros Hnil. by rewrite Hnil in Hkept. }
  assert (getActiveUser st r ≠ Some id) as Hnot.
  { rewrite Hact. intros [= ->]. pose proof (NoDup_lookup _ _ _ _ Hnd Ha Hj). lia. }
  rewrite (disconnect_other _ _ _ _ Hkey Hr Hus Hnot).
  assert (js_index (filter (λ u, u ≠ id) (users rm)) (currentTurnIndex rm) = None) as Hjs.
  { unfold js_index. by rewrite decide_True. }
  rewrite Hjs. simpl indexOf. rewrite decide_False by (intros Hc; by apply Hc). simpl.
  assert (getActiveUser
            (mkServer (<[r := mkRoom (filter (λ u, u ≠ id) (users rm)) 0]> (rooms st))
                      (delete id (sockets st))) r
          = filter (λ u, u ≠ id) (users rm) !! 0%nat) as Hpost.
  { rewrite (getActiveUser_lookup _ r (mkRoom (filter (λ u, u ≠ id) (users rm)) 0));
      [done| |done]. simpl. apply lookup_insert_eq. }
  rewrite Hpost. split; [apply lookup_insert_eq|]. split; [done|]. split.
  { destruct (filter (λ u, u ≠ id) (users rm)); [done|by eexists]. }
  intros Hbig Heq. rewrite Hact in Heq.
  pose proof (NoDup_lookup _ _ _ _ (NoDup_filter _ _ Hnd) Heq Hkept). lia.
Qed.

Lemma X3_leaver_before_last_active_resets_witness :
  rooms (run three_joined_B_active [("B", PassTurn in_r1)]) !! "r1"
  = Some (mkRoom ["A"; "B"; "C"] 2)
  ∧ getActiveUser (run three_joined_B_active [("B", PassTurn in_r1)]) "r1" = Some "C"
  ∧ rooms (disconnect "A" (run three_joined_B_active [("B", PassTurn in_r1)])).1 !! "r1"
    = Some (mkRoom ["B"; "C"] 0)
  ∧ getActiveUser (disconnect "A" (run three_joined_B_active [("B", PassTurn in_r1)])).1 "r1"
    = Some "B".
Proof.
  assert (rooms (run three_joined_B_active [("B", PassTurn in_r1)]) !! "r1"
          = Some (mkRoom ["A"; "B"; "C"] 2)) as Hr by (by vm_compute).
  split; [exact Hr|]. split; [by vm_compute|].
  destruct (X3_leaver_before_last_active_resets
              (run three_joined_B_active [("B", PassTurn in_r1)]) "A" "r1"
              (mkRoom ["A"; "B"; "C"] 2) 0%nat)
    as (Hrooms & Hactive & _); [by vm_compute|exact Hr
    |by apply (bool_decide_unpack _); vm_compute|done|simpl; lia|done|].
  split; [exact Hrooms|exact Hactive].
Defined.

(** X4: the disconnect of a socket that never joined a room (no room name is
    stored on it) reads the registry under the key ["undefined"]: every room
    of another name is left as it was, and when the registry has no room of
    that name the registry is unchanged and nothing is emitted. *)
Theorem X4_orphan_disconnect st id :
  roomName (socket_of st id) = None →
  (∀ r, r ≠ "undefined" → rooms (disconnect id st).1 !! r = rooms st !! r)
  ∧ (rooms st !! "undefined" = None →
     rooms (disconnect id st).1 = rooms st ∧ (disconnect id st).2 = []).
Proof.
  intros Hnone. split.
  - intros r Hr. apply disconnect_frame. by rewrite Hnone.
  - intros Habs. rewrite disconnect_absent; [done|]. by rewrite Hnone.
Qed.

Lemma X4_orphan_disconnect_witness :
  roomName (socket_of two_joined "Z") = None
  ∧ rooms (disconnect "Z" two_joined).1 = rooms two_joined
  ∧ (disconnect "Z" two_joined).2 = [].
Proof.
  assert (roomName (socket_of two_joined "Z") = None) as Hn by (by vm_compute).
  split; [exact Hn|].
  destruct (X4_orphan_disconnect two_joined "Z" Hn) as [_ Hsame].
  apply Hsame. by vm_compute.
Defined.

Lemma disconnect_sockets id st :
  sockets (disconnect id st).1 = delete id (sockets st).
Proof.
  unfold disconnect. simpl.
  destruct (rooms st !! _); [|done]. case_decide; [done|].
  destruct (bool_decide _); [done|]. by case_decide.
Qed.

(** X5: a disconnect takes every occurrence of the socket's id out of the
    member list stored under the socket's room name, keeping the other
    members in their order; the records of all other rooms are left as they
    were, and the socket is forgotten. *)
Theorem X5_disconnect_removes_from_own_room_only st id :
  let key := property_key (roomName (socket_of st id)) in
  members (disconnect id st).1 key = filter (λ u, u ≠ id) (members st key)
  ∧ (id ∉ members (disconnect id st).1 key)
  ∧ (∀ r, r ≠ key → rooms (disconnect id st).1 !! r = rooms st !! r)
  ∧ sockets (disconnect id st).1 !! id = None.
Proof.
  intros key.
  assert (members (disconnect id st).1 key = filter (λ u, u ≠ id) (members st key)) as Hm.
  { rewrite members_disconnect. by rewrite decide_True. }
  split; [done|]. split.
  { rewrite Hm, list_elem_of_filter. naive_solver. }
  split; [intros r Hr; by apply disconnect_frame|].
  rewrite disconnect_sockets. apply lookup_delete_eq.
Qed.

Lemma passTurn_keeps_membership st r0 :
  (∀ r, members (passTurn st r0).1 r = members st r)
  ∧ dom (rooms (passTurn st r0).1) = dom (rooms st)
  ∧ sockets (passTurn st r0).1 = sockets st
  ∧ (∀ r, r ≠ r0 → rooms (passTurn st r0).1 !! r = rooms st !! r).
Proof.
  destruct (rooms st !! r0) as [rm|] eqn:Hr;
    [|rewrite passTurn_noop; [done|intros rm; by rewrite Hr]].
  destruct (decide (users rm = [])) as [Hnil|Hne].
  { rewrite passTurn_noop; [done|]. intros rm' Hrm'. congruence. }
  rewrite (passTurn_present _ _ _ Hr Hne). simpl. split; [|split; [|split]].
  - intros r. unfold members. simpl. destruct (decide (r = r0)) as [->|Hneq].
    + by rewrite lookup_insert_eq, Hr.
    + by rewrite lookup_insert_ne.
  - apply dom_insert_lookup_L. by rewrite Hr.
  - done.
  - intros r Hneq. by rewrite lookup_insert_ne.
Qed.

(** X6: a pass-turn event never changes who is in which room: every member
    list, the set of room names and the sockets are as before, and so is
    the record of every room but the one the event names. *)
Theorem X6_pass_turn_keeps_membership st id data :
  (∀ r, members (handle st id (PassTurn data)).1 r = members st r)
  ∧ dom (rooms (handle st id (PassTurn data)).1) = dom (rooms st)
  ∧ sockets (handle st id (PassTurn data)).1 = sockets st
  ∧ (∀ r, r ≠ room data → rooms (handle st id (PassTurn data)).1 !! r = rooms st !! r).
Proof. cbn [handle]. unfold pass_turn. apply passTurn_keeps_membership. Qed.

(** ** What the handlers emit *)

Lemma getActiveUser_insert rs ss r us i :
  us ≠ [] → getActiveUser (mkServer (<[r := mkRoom us i]> rs) ss) r = js_index us i.
Proof.
  intros Hne. rewrite (getActiveUser_lookup _ r (mkRoom us i)); [done| |done].
  simpl. apply lookup_insert_eq.
Qed.

Lemma registry_event_emits st id ev e :
  draw_payload ev = None →
  e ∈ (handle st id ev).2 →
  ∃ r rm, e = mkEmit (io_in r) (turn_update (getActiveUser (handle st id ev).1 r))
          ∧ (handle st id ev).2 = [e]
          ∧ rooms (handle st id ev).1 !! r = Some rm
          ∧ users rm ≠ [].
Proof.
  intros Hev He. destruct ev as [r|data| | | | |]; try done; cbn [handle] in *.
  - destruct (join_room_throws st r) eqn:Ht.
    { rewrite join_room_thrown in He by done. by apply not_elem_of_nil in He. }
    rewrite join_room_emits in * by done. apply list_elem_of_singleton in He as ->.
    exists r. eexists. split; [done|]. split; [done|]. split.
    + rewrite join_room_rooms by done. apply lookup_insert_eq.
    + simpl. by intros [_ ?]%app_eq_nil.
  - unfold pass_turn in *. destruct (rooms st !! room data) as [rm|] eqn:Hr.
    + destruct (decide (users rm = [])) as [Hnil|Hne].
      { rewrite passTurn_noop in He; [by apply not_elem_of_nil in He|].
        intros rm' Hrm'. congruence. }
      rewrite (passTurn_present _ _ _ Hr Hne) in *. simpl in *.
      apply list_elem_of_singleton in He as ->.
      exists (room data). eexists. split; [|split; [done|split; [apply lookup_insert_eq|done]]].
      by rewrite getActiveUser_insert.
    + rewrite passTurn_noop in He; [by apply not_elem_of_nil in He|].
      intros rm. by rewrite Hr.
  - destruct (rooms st !! property_key (roomName (socket_of st id))) as [rm|] eqn:Hr;
      [|rewrite disconnect_absent in He by done; by apply not_elem_of_nil in He].
    destruct (decide (filter (λ u, u ≠ id) (users rm) = [])) as [Hus|Hus].
    { rewrite (disconnect_last _ _ _ _ eq_refl Hr Hus) in He.
      by apply not_elem_of_nil in He. }
    destruct (decide (getActiveUser st (property_key (roomName (socket_of st id))) = Some id))
      as [Hact|Hact].
    + rewrite (disconnect_active _ _ _ _ eq_refl Hr Hus Hact) in *. simpl in *.
      apply list_elem_of_singleton in He as ->.
      eexists. eexists. split; [|split; [done|split; [apply lookup_insert_eq|done]]].
      by rewrite getActiveUser_insert.
    + rewrite (disconnect_other _ _ _ _ eq_refl Hr Hus Hact) in *. simpl in *.
      apply list_elem_of_singleton in He as ->.
      eexists. eexists. split; [|split; [done|split; [apply lookup_insert_eq|done]]].
      by rewrite getActiveUser_insert.
Qed.

Lemma draw_event_emits st id ev data e :
  draw_payload ev = Some data →
  e ∈ (handle st id ev).2 →
  getActiveUser st (room data) = Some id
  ∧ (handle st id ev).2 = [e]
  ∧ ∀ a, message e ≠ turn_update a.
Proof.
  intros Hev He.
  destruct (decide (getActiveUser st (room data) = Some id)) as [Hact|Hact].
  - split; [done|].
    destruct ev; simpl in Hev; simplify_eq; cbn [handle] in *;
      unfold start_drawing, drawing, finish_drawing, clear_canvas in *;
      rewrite handleDrawEvent_passed in * by done; simpl in *;
      apply list_elem_of_singleton in He as ->; done.
  - destruct ev; simpl in Hev; simplify_eq; cbn [handle] in *;
      unfold start_drawing, drawing, finish_drawing, clear_canvas in *;
      rewrite handleDrawEvent_blocked in He by done; by apply not_elem_of_nil in He.
Qed.

(** X7: whatever the event, drawing events included, a handler makes at most
    one emit. A turn-update it emits carries what [getActiveUser] returns, in
    the state the handler leaves behind, for the room name the handler
    worked on (the joined room, the room of the pass-turn payload, the name
    stored on the disconnecting socket), and that room is in the registry
    then: the announcement never disagrees with the registry. It is
    addressed to that whole room when the name came with the event or was
    stored on the socket. *)
Theorem X7_turn_update_matches_registry st id ev :
  (length (handle st id ev).2 ≤ 1)%nat
  ∧ ∀ e a,
      e ∈ (handle st id ev).2 →
      message e = turn_update a →
      let r := match ev with
               | JoinRoom roomName => roomName
               | PassTurn data => room data
               | _ => property_key (roomName (socket_of st id))
               end in
      is_Some (rooms (handle st id ev).1 !! r)
      ∧ a = getActiveUser (handle st id ev).1 r
      ∧ (ev ≠ Disconnect ∨ is_Some (roomName (socket_of st id)) → target e = io_in r).
Proof.
  split.
  - destruct (handle st id ev).2 as [|e l] eqn:Hout; [simpl; lia|].
    assert (e ∈ (handle st id ev).2) as He by (rewrite Hout; by left).
    destruct (draw_payload ev) as [data|] eqn:Hev.
    + destruct (draw_event_emits _ _ _ _ _ Hev He) as (_ & Hone & _).
      rewrite Hout in Hone. injection Hone as ->. simpl. lia.
    + destruct (registry_event_emits _ _ _ _ Hev He) as (r & rm & _ & Hone & _).
      rewrite Hout in Hone. injection Hone as ->. simpl. lia.
  - intros e a He Hmsg r. destruct (draw_payload ev) as [data|] eqn:Hev.
    { destruct (draw_event_emits _ _ _ _ _ Hev He) as (_ & _ & Hno). by destruct (Hno a). }
    destruct (registry_event_emits _ _ _ _ Hev He) as (r' & rm & He' & Hone & Hr & _).
    assert (r' = r) as ->.
    { subst e r. destruct ev as [r0|data| | | | |]; try done; cbn [handle] in *.
      - destruct (join_room_throws st r0) eqn:Ht.
        { rewrite join_room_thrown in He by done. by apply not_elem_of_nil in He. }
        rewrite join_room_emits in He by done.
        apply list_elem_of_singleton in He. by injection He.
      - unfold pass_turn in *. destruct (rooms st !! room data) as [rm0|] eqn:Hr0.
        + destruct (decide (users rm0 = [])) as [Hnil|Hne].
          { rewrite passTurn_noop in He; [by apply not_elem_of_nil in He|].
            intros rm' Hrm'. congruence. }
          rewrite (passTurn_present _ _ _ Hr0 Hne) in He. simpl in He.
          apply list_elem_of_singleton in He. by injection He.
        + rewrite passTurn_noop in He; [by apply not_elem_of_nil in He|].
          intros rm0. by rewrite Hr0.
      - destruct (rooms st !! property_key (roomName (socket_of st id))) as [rm0|] eqn:Hr0;
          [|rewrite disconnect_absent in He by done; by apply not_elem_of_nil in He].
        destruct (decide (filter (λ u, u ≠ id) (users rm0) = [])) as [Hus|Hus].
        { rewrite (disconnect_last _ _ _ _ eq_refl Hr0 Hus) in He.
          by apply not_elem_of_nil in He. }
        destruct (decide (getActiveUser st (property_key (roomName (socket_of st id)))
                          = Some id)) as [Hact|Hact].
        + rewrite (disconnect_active _ _ _ _ eq_refl Hr0 Hus Hact) in He. simpl in He.
          apply list_elem_of_singleton in He. by injection He.
        + rewrite (disconnect_other _ _ _ _ eq_refl Hr0 Hus Hact) in He. simpl in He.
          apply list_elem_of_singleton in He. by injection He. }
    subst e. simpl in Hmsg. injection Hmsg as <-.
    split; [by eexists|]. split; [done|]. done.
Qed.

Lemma X7_turn_update_matches_registry_witness :
  (length (handle two_joined "A" (Drawing stroke)).2 ≤ 1)%nat
  ∧ mkEmit (io_in "r1") (turn_update (Some "B")) ∈ (handle two_joined "B" (PassTurn in_r1)).2
  ∧ Some "B" = getActiveUser (handle two_joined "B" (PassTurn in_r1)).1 "r1".
Proof.
  destruct (X7_turn_update_matches_registry two_joined "A" (Drawing stroke)) as [Hone _].
  destruct (X7_turn_update_matches_registry two_joined "B" (PassTurn in_r1)) as [_ Hupd].
  assert (mkEmit (io_in "r1") (turn_update (Some "B"))
          ∈ (handle two_joined "B" (PassTurn in_r1)).2) as He
    by (by apply (bool_decide_unpack _); vm_compute).
  split; [exact Hone|]. split; [exact He|].
  by destruct (Hupd _ (Some "B") He eq_refl) as (_ & Ha & _).
Defined.



(** X9: at no state can two different sockets both get a drawing-class
    event for the same room relayed: whenever such an event produces an
    emit its sender is the room's active connection, so two senders whose
    events for one room both produce an emit are the same socket. *)
Theorem X9_one_drawer_per_room st id1 id2 ev1 ev2 data1 data2 :
  draw_payload ev1 = Some data1 →
  draw_payload ev2 = Some data2 →
  room data1 = room data2 →
  (handle st id1 ev1).2 ≠ [] →
  (handle st id2 ev2).2 ≠ [] →
  id1 = id2 ∧ getActiveUser st (room data1) = Some id1.
Proof.
  intros Hev1 Hev2 Hroom Hout1 Hout2.
  destruct ((handle st id1 ev1).2) as [|e1 l1] eqn:H1; [done|].
  destruct ((handle st id2 ev2).2) as [|e2 l2] eqn:H2; [done|].
  destruct (draw_event_emits st id1 ev1 data1 e1 Hev1) as (Ha1 & _); [rewrite H1; by left|].
  destruct (draw_event_emits st id2 ev2 data2 e2 Hev2) as (Ha2 & _); [rewrite H2; by left|].
  split; [|done]. rewrite Hroom in Ha1. congruence.
Qed.

Lemma X9_one_drawer_per_room_witness :
  (handle two_joined "A" (Drawing stroke)).2 ≠ []
  ∧ (handle two_joined "A" (ClearCanvas in_r1)).2 ≠ []
  ∧ getActiveUser two_joined "r1" = Some "A".
Proof.
  assert ((handle two_joined "A" (Drawing stroke)).2 ≠ []) as H1 by (by vm_compute).
  assert ((handle two_joined "A" (ClearCanvas in_r1)).2 ≠ []) as H2 by (by vm_compute).
  split; [exact H1|]. split; [exact H2|].
  by destruct (X9_one_drawer_per_room two_joined "A" "A" (Drawing stroke) (ClearCanvas in_r1)
                 stroke in_r1 eq_refl eq_refl eq_refl H1 H2) as [_ ?].
Defined.

(** ** Invariants under the one-join discipline *)

Lemma getActiveUser_ext st1 st2 r :
  rooms st1 !! r = rooms st2 !! r → getActiveUser st1 r = getActiveUser st2 r.
Proof. intros Heq. unfold getActiveUser. by rewrite Heq. Qed.

(** X10: member lists stay free of duplicates as long as no socket joins a
    room it is already a member of: pass-turn and the drawing events leave
    the lists alone, a disconnect filters one, and a join appends an id the
    list did not hold. *)
Theorem X10_members_stay_distinct st id ev :
  Distinct st →
  (∀ r, ev = JoinRoom r → id ∉ members st r) →
  Distinct (handle st id ev).1.
Proof.
  intros Hd Hjoin. destruct (draw_payload ev) as [data|] eqn:Hev.
  { by rewrite (draw_state _ _ _ _ Hev). }
  destruct ev as [r|data| | | | |]; try done; cbn [handle].
  - destruct (join_room_throws st r) eqn:Ht.
    { by rewrite join_room_thrown. }
    unfold Distinct. rewrite join_room_rooms by done. apply map_Forall_insert_2; [|done].
    simpl. specialize (Hjoin r eq_refl). unfold members in Hjoin.
    destruct (rooms st !! r) as [rm|] eqn:Hr; simpl.
    + apply NoDup_app. split; [by apply (map_Forall_lookup_1 _ _ _ _ Hd Hr)|].
      split; [|apply NoDup_singleton]. intros x Hx ->%list_elem_of_singleton. done.
    + apply NoDup_singleton.
  - unfold pass_turn. destruct (rooms st !! room data) as [rm|] eqn:Hr;
      [|rewrite passTurn_noop; [done|intros rm; by rewrite Hr]].
    destruct (decide (users rm = [])) as [Hnil|Hne].
    { rewrite passTurn_noop; [done|]. intros rm' Hrm'. congruence. }
    rewrite (passTurn_present _ _ _ Hr Hne). apply map_Forall_insert_2; [|done].
    by apply (map_Forall_lookup_1 _ _ _ _ Hd Hr).
  - destruct (rooms st !! property_key (roomName (socket_of st id))) as [rm|] eqn:Hr;
      [|by rewrite disconnect_absent].
    pose proof (NoDup_filter (λ u, u ≠ id) _ (map_Forall_lookup_1 _ _ _ _ Hd Hr)) as Hnd.
    destruct (decide (filter (λ u, u ≠ id) (users rm) = [])) as [Hus|Hus].
    { rewrite (disconnect_last _ _ _ _ eq_refl Hr Hus). by apply map_Forall_delete. }
    destruct (decide (getActiveUser st (property_key (roomName (socket_of st id))) = Some id))
      as [Hact|Hact].
    + rewrite (disconnect_active _ _ _ _ eq_refl Hr Hus Hact).
      by apply map_Forall_insert_2.
    + rewrite (disconnect_other _ _ _ _ eq_refl Hr Hus Hact).
      by apply map_Forall_insert_2.
Qed.

Lemma X10_members_stay_distinct_witness :
  Distinct two_joined
  ∧ ("C" ∉ members two_joined "r1")
  ∧ Distinct (handle two_joined "C" (JoinRoom "r1")).1.
Proof.
  assert (Distinct two_joined) as Hd by (by apply (bool_decide_unpack _); vm_compute).
  assert ("C" ∉ members two_joined "r1") as Hc by (by apply (bool_decide_unpack _); vm_compute).
  split; [exact Hd|]. split; [exact Hc|].
  apply X10_members_stay_distinct; [exact Hd|]. by intros r [= <-].
Defined.

(** X11: a join followed at once by the same socket's disconnect gives the
    registry back as it was, when the socket was not a member of the room
    and the room, if it existed, had a duplicate-free member list and its
    turn pointer in bounds: a room created by the join is deleted again, and
    an existing room gets back its member list and its turn pointer. *)
Theorem X11_join_then_disconnect_restores st id r :
  (∀ rm, rooms st !! r = Some rm → in_bounds rm ∧ NoDup (users rm) ∧ id ∉ users rm) →
  rooms (disconnect id (join_room id st r).1).1 = rooms st.
Proof.
  intros Hpre. remember (join_room id st r).1 as st1 eqn:Hst1.
  assert (property_key (roomName (socket_of st1 id)) = r) as Hkey.
  { subst st1. unfold socket_of. by rewrite join_room_sockets, lookup_insert_eq. }
  destruct (join_room_throws st r) eqn:Ht.
  { rewrite disconnect_absent; subst st1; rewrite join_room_thrown by done; [done|].
    simpl. unfold socket_of. simpl. rewrite lookup_insert_eq. simpl.
    by apply reads_prototype_true in Ht as [? _]. }
  pose proof (join_room_rooms id st r Ht) as Hrooms. cbv zeta in Hrooms.
  rewrite <- Hst1 in Hrooms. clear Hst1.
  destruct (rooms st !! r) as [rm|] eqn:Hr;
    cbn [from_option users currentTurnIndex app] in Hrooms.
  - destruct (Hpre rm eq_refl) as (Hin & Hnd & Hid). unfold in_bounds in Hin.
    assert (rooms st1 !! r = Some (mkRoom (users rm ++ [id]) (currentTurnIndex rm))) as Hr1.
    { rewrite Hrooms. apply lookup_insert_eq. }
    assert (filter (λ u, u ≠ id) ((users rm ++ [id])%list) = users rm) as Hf.
    { rewrite filter_app, filter_others_id by done.
      rewrite filter_cons_False by naive_solver. by rewrite filter_nil, app_nil_r. }
    destruct (lookup_lt_is_Some_2 (users rm) (Z.to_nat (currentTurnIndex rm)) ltac:(lia))
      as [a Ha].
    assert (users rm ≠ []) as Hne by (intros Hnil; by rewrite Hnil in Ha).
    assert (getActiveUser st1 r ≠ Some id) as Hact.
    { rewrite (getActiveUser_lookup _ _ _ Hr1) by (simpl; by intros [_ ?]%app_eq_nil).
      simpl. unfold js_index. rewrite decide_True by lia.
      rewrite lookup_app_l by lia. rewrite Ha. intros [= ->].
      apply Hid. by eapply list_elem_of_lookup_2. }
    pose proof (disconnect_other id st1 r _ Hkey Hr1) as Hd. simpl in Hd.
    assert (js_index (users rm) (currentTurnIndex rm) = Some a) as Hjs.
    { unfold js_index. by rewrite decide_True by lia. }
    rewrite Hf in Hd. rewrite (Hd Hne Hact). simpl. rewrite Hjs. simpl.
    rewrite (indexOf_from_NoDup 0 _ _ _ Hnd Ha). rewrite decide_True by lia.
    rewrite Hrooms, insert_insert_eq.
    replace (0 + Z.of_nat (Z.to_nat (currentTurnIndex rm))) with (currentTurnIndex rm) by lia.
    destruct rm as [us i]. by apply insert_id.
  - assert (rooms st1 !! r = Some (mkRoom [id] 0)) as Hr1.
    { rewrite Hrooms. apply lookup_insert_eq. }
    rewrite (disconnect_last id st1 r _ Hkey Hr1).
    + simpl. rewrite Hrooms. by apply delete_insert_id.
    + simpl. by rewrite filter_cons_False by naive_solver.
Qed.

Lemma X11_join_then_disconnect_restores_witness :
  rooms two_joined !! "r1" = Some (mkRoom ["A"; "B"] 0)
  ∧ rooms (disconnect "C" (join_room "C" two_joined "r1").1).1 = rooms two_joined.
Proof.
  assert (rooms two_joined !! "r1" = Some (mkRoom ["A"; "B"] 0)) as Hr by (by vm_compute).
  split; [exact Hr|]. apply X11_join_then_disconnect_restores.
  intros rm Hrm. rewrite Hr in Hrm. injection Hrm as <-.
  split; [unfold in_bounds; simpl; lia|].
  split; by apply (bool_decide_unpack _); vm_compute.
Defined.

(** X12: a join never takes the turn away: on a registry whose turn pointers
    are in bounds, the active connection of every room that existed before
    the join, the joined room included, is the same after it. *)
Theorem X12_join_keeps_active st id r r' :
  Bounds st →
  is_Some (rooms st !! r') →
  getActiveUser (join_room id st r).1 r' = getActiveUser st r'.
Proof.
  intros Hb [rm Hr']. destruct (decide (r' = r)) as [->|Hne].
  - pose proof (map_Forall_lookup_1 _ _ _ _ Hb Hr') as Hin. simpl in Hin.
    unfold in_bounds in Hin.
    assert (rooms (join_room id st r).1 !! r
            = Some (mkRoom (users rm ++ [id]) (currentTurnIndex rm))) as Hr1.
    { rewrite join_room_rooms, lookup_insert_eq by (apply reads_prototype_present; by eexists).
      by rewrite Hr'. }
    rewrite (getActiveUser_lookup _ _ _ Hr1) by (simpl; by intros [_ ?]%app_eq_nil).
    rewrite (getActiveUser_lookup _ _ _ Hr') by (by apply in_bounds_nonempty).
    simpl. unfold js_index. rewrite !decide_True by lia. by rewrite lookup_app_l by lia.
  - apply getActiveUser_ext. destruct (join_room_throws st r) eqn:Ht.
    + by rewrite join_room_thrown.
    + rewrite join_room_rooms by done. by rewrite lookup_insert_ne.
Qed.

Lemma X12_join_keeps_active_witness :
  Bounds three_joined_B_active
  ∧ getActiveUser (join_room "D" three_joined_B_active "r1").1 "r1" = Some "B".
Proof.
  assert (Bounds three_joined_B_active) as Hb by (by apply (bool_decide_unpack _); vm_compute).
  split; [exact Hb|].
  rewrite (X12_join_keeps_active three_joined_B_active "D" "r1" "r1" Hb); [by vm_compute|].
  eexists. by vm_compute.
Defined.

(** X13: on a registry whose turn pointers are in bounds, [getActiveUser]
    has three outcomes, told apart by the room name alone. For a room of
    the registry it returns a member of that room. For a name the registry
    does not have and [Object.prototype] does not define it returns null.
    For a name the registry does not have and [Object.prototype] defines it
    throws. *)
Theorem X13_active_user_by_room_name st r :
  Bounds st →
  (∀ rm, rooms st !! r = Some rm →
     getActiveUser_throws st r = false
     ∧ ∃ u, getActiveUser st r = Some u ∧ u ∈ users rm)
  ∧ (rooms st !! r = None → inherited r = false →
     getActiveUser_throws st r = false ∧ getActiveUser st r = None)
  ∧ (rooms st !! r = None → inherited r = true → getActiveUser_throws st r = true)
  ∧ (∀ u, getActiveUser st r = Some u → u ∈ members st r).
Proof.
  intros Hb. unfold getActiveUser_throws, reads_prototype. split; [|split; [|split]].
  - intros rm Hr. rewrite Hr. split; [done|].
    pose proof (map_Forall_lookup_1 _ _ _ _ Hb Hr) as Hin. simpl in Hin.
    rewrite (getActiveUser_lookup _ _ _ Hr (in_bounds_nonempty _ Hin)).
    destruct (js_index_in_range _ _ Hin) as [_ [u Hu]].
    exists u. split; [done|]. by apply js_index_Some in Hu as [_ ?].
  - intros Hr Hinh. rewrite Hr. split; [done|]. by apply getActiveUser_absent.
  - intros Hr Hinh. by rewrite Hr.
  - intros u (rm & Hr & Hu & _)%getActiveUser_Some. unfold members. by rewrite Hr.
Qed.

Lemma X13_active_user_by_room_name_witness :
  Bounds two_joined
  ∧ getActiveUser two_joined "r1" = Some "A"
  ∧ getActiveUser two_joined "r2" = None
  ∧ getActiveUser_throws two_joined "r2" = false
  ∧ getActiveUser_throws two_joined "toString" = true.
Proof.
  assert (Bounds two_joined) as Hb by (by apply (bool_decide_unpack _); vm_compute).
  destruct (X13_active_user_by_room_name two_joined "r2" Hb) as (_ & Hnull & _).
  destruct (X13_active_user_by_room_name two_joined "toString" Hb) as (_ & _ & Hthrow & _).
  destruct (Hnull ltac:(by vm_compute) ltac:(by vm_compute)) as [Hno Hnone].
  split; [exact Hb|]. split; [by vm_compute|]. split; [exact Hnone|]. split; [exact Hno|].
  apply Hthrow; by vm_compute.
Defined.


